(** * ViralVision: the multi-stage AI orchestration pipeline

    A shallow embedding of [src/services/geminiService.ts] (the AI gateway)
    and of the state-changing handlers of [src/App.tsx] (the pipeline
    orchestrator and the history store), with the properties of the
    specification stated over them.

    The generative backend, the clock, the browser's file reader and
    [JSON.parse] are not part of the repository.  The backend, the clock and
    the file reader are oracles of an environment [Env]; [JSON.parse] and the
    few operations on JavaScript numbers the code relies on are the interface
    [Runtime], of which [concrete_runtime] is an executable instance. *)

From Stdlib Require Import String Ascii List Bool Arith ZArith DecimalString Lia.
Import ListNotations.
Local Open Scope string_scope.
Local Open Scope list_scope.

(** * Exceptions and fallible computations *)

(** What a [throw] or a rejected promise carries. *)
Inductive JSError : Type :=
| TypeError                          (* property of null/undefined, call of a non-function *)
| SyntaxError                        (* JSON.parse on text that is not JSON *)
| ErrorMsg (message : string)        (* new Error(message) *)
| RequestRejected (reason : string)  (* ai.models.generateContent rejected *)
| FileReadError.                     (* FileReader's onerror *)

Inductive result (A : Type) : Type :=
| Ok (a : A)
| Err (e : JSError).
Arguments Ok {A} a.
Arguments Err {A} e.

Definition rbind {A B} (c : result A) (k : A -> result B) : result B :=
  match c with
  | Ok a => k a
  | Err e => Err e
  end.

Notation "'let*' x ':=' c 'in' k" := (rbind c (fun x => k))
  (at level 10, x name, c at level 100, k at level 200).

(** Left-to-right traversal that stops at the first exception. *)
Definition mapM {A B} (f : A -> result B) : list A -> result (list B) :=
  fix go (l : list A) : result (list B) :=
    match l with
    | [] => Ok []
    | x :: rest =>
        let* y := f x in
        let* ys := go rest in
        Ok (y :: ys)
    end.

(** * JavaScript values

    The values [JSON.parse] yields, and [undefined].  TypeScript's interfaces
    are erased at run time: what the gateway returns is whatever the response
    text parsed to. *)

#[warnings="-register-all"]
Inductive value (number : Type) : Type :=
| VUndefined
| VNull
| VBool (b : bool)
| VNum (n : number)
| VStr (s : string)
| VArr (elements : list (value number))
| VObj (fields : list (string * value number)).
Arguments VUndefined {number}.
Arguments VNull {number}.
Arguments VBool {number} b.
Arguments VNum {number} n.
Arguments VStr {number} s.
Arguments VArr {number} elements.
Arguments VObj {number} fields.

(** The double quote character, as a one-character string. *)
Definition dq : string := String (ascii_of_nat 34) EmptyString.

(** The text [{"concepts":[]}]. *)
Definition empty_concepts_text : string :=
  "{" ++ dq ++ "concepts" ++ dq ++ ":[]}".

(** The part of the JavaScript run time the code relies on and the
    repository does not contain.  Numbers are IEEE doubles: their
    representation is left open, with the operations the code applies to
    them. *)
Class Runtime (number : Type) : Type := {
  (** [String(n)], as template literals and [join] convert a number *)
  Number_toString : number -> string;
  (** the number a [length] property holds *)
  Number_of_nat : nat -> number;
  (** [n > 0] *)
  Number_gt_zero : number -> bool;
  (** [Boolean(n)]: false for 0, -0 and NaN *)
  Number_truthy : number -> bool;
  (** [Number(s)], as [>] converts a string operand *)
  StringToNumber : string -> number;
  JSON_parse : string -> result (value number);
  JSON_parse_empty_object : JSON_parse "{}" = Ok (VObj []);
  JSON_parse_empty_concepts :
    JSON_parse empty_concepts_text = Ok (VObj [("concepts", VArr [])]);
  JSON_parse_throws_SyntaxError :
    forall s e, JSON_parse s = Err e -> e = SyntaxError;
  JSON_parse_defined : forall s, JSON_parse s <> Ok VUndefined;
  Number_gt_zero_of_nat :
    forall n, Number_gt_zero (Number_of_nat n) = (0 <? n)%nat
}.

(** * The data of the application ([types.ts], [App.tsx]) *)

Inductive Platform : Type := YouTube | Instagram | Twitter | Pinterest.

Definition PLATFORMS : list Platform := [YouTube; Instagram; Twitter; Pinterest].

(** The string a [Platform] is at run time. *)
Definition Platform_name (p : Platform) : string :=
  match p with
  | YouTube => "YouTube"
  | Instagram => "Instagram"
  | Twitter => "Twitter"
  | Pinterest => "Pinterest"
  end.

Inductive MediaKind : Type := image | video.

Inductive LoadingStep : Type := idle | analyzing | optimizing | visualizing.

(** A [File]: its declared MIME type and what [FileReader.readAsDataURL]
    yields for it (a data URL, or the error event). *)
Record File : Type := {
  file_type : string;
  file_dataURL : result string
}.

(** * Requests to and responses of the generative backend *)

#[warnings="-register-all"]
Inductive Schema : Type :=
| SchemaString (description : option string)
| SchemaArray (items : Schema)
| SchemaObject (properties : list (string * Schema)) (required : list string).

Inductive RequestConfig : Type :=
| JsonResponse (responseSchema : Schema)  (* responseMimeType: application/json *)
| ImageConfig (aspectRatio imageSize : string).

Record Blob : Type := {
  data : option string;
  mimeType : option string
}.

Record Part : Type := {
  part_text : option string;
  inlineData : option Blob
}.

Record Content : Type := { parts : option (list Part) }.

Record Candidate : Type := { content : option Content }.

(** What [generateContent] resolves with: the candidates, and the value of
    the [text] accessor. *)
Record GenerateContentResponse : Type := {
  candidates : option (list Candidate);
  text : option string
}.

Definition nl : string := String (ascii_of_nat 10) EmptyString.

(** [text || fallback] for the [text] accessor of a response. *)
Definition text_or (t : option string) (fallback : string) : string :=
  match t with
  | Some s => if String.eqb s "" then fallback else s
  | None => fallback
  end.

Declare Scope handler_scope.
Delimit Scope handler_scope with handler.

(** * Operations on values *)

Section Model.
Context {number : Type} {R : Runtime number}.
Local Abbreviation val := (value number).
Local Open Scope handler_scope.

(** The binding of [k] in an object; of two bindings of one key the later
    one counts, as in [JSON.parse]. *)
Fixpoint lookup (k : string) (fields : list (string * val)) : option val :=
  match fields with
  | [] => None
  | (k', v) :: rest =>
      match lookup k rest with
      | Some v' => Some v'
      | None => if String.eqb k k' then Some v else None
      end
  end.

(** [v.k] for a data property name [k] of this program ([keyScenes],
    [controversies], [length], [topic], [summary], [concepts], ...): none of
    them is inherited from [Object.prototype]. *)
Definition Get (v : val) (k : string) : result val :=
  match v with
  | VUndefined | VNull => Err TypeError
  | VObj fields =>
      match lookup k fields with
      | Some x => Ok x
      | None => Ok VUndefined
      end
  | VArr l =>
      if String.eqb k "length" then Ok (VNum (Number_of_nat (List.length l)))
      else Ok VUndefined
  | VStr s =>
      if String.eqb k "length" then Ok (VNum (Number_of_nat (String.length s)))
      else Ok VUndefined
  | VBool _ | VNum _ => Ok VUndefined
  end.

Fixpoint join_strings (sep : string) (l : list string) : string :=
  match l with
  | [] => ""
  | [s] => s
  | s :: rest => s ++ sep ++ join_strings sep rest
  end.

Definition has_own (k : string) (fields : list (string * val)) : bool :=
  match lookup k fields with
  | Some _ => true
  | None => false
  end.

(** [String(v)], the conversion of template literals.  An array converts by
    [join(",")], in which [null] and [undefined] elements give the empty
    string; a plain object gives [[object Object]], unless an own property
    [toString] (never callable in parsed JSON) hides the inherited method. *)
Fixpoint ToString (v : val) : result string :=
  match v with
  | VUndefined => Ok "undefined"
  | VNull => Ok "null"
  | VBool true => Ok "true"
  | VBool false => Ok "false"
  | VNum n => Ok (Number_toString n)
  | VStr s => Ok s
  | VArr l =>
      let* strs :=
        mapM (fun x =>
                match x with
                | VUndefined | VNull => Ok ""
                | _ => ToString x
                end) l in
      Ok (join_strings "," strs)
  | VObj fields =>
      if has_own "toString" fields then Err TypeError
      else Ok "[object Object]"
  end.

Definition elementToString (x : val) : result string :=
  match x with
  | VUndefined | VNull => Ok ""
  | _ => ToString x
  end.

(** [v.join(sep)]: only an array has a callable [join]. *)
Definition Array_join (v : val) (sep : string) : result string :=
  match v with
  | VArr l =>
      let* strs := mapM elementToString l in
      Ok (join_strings sep strs)
  | _ => Err TypeError
  end.

(** [v.map(f)]: only an array has a callable [map]. *)
Definition Array_map (f : val -> result val) (v : val) : result val :=
  match v with
  | VArr l =>
      let* ys := mapM f l in
      Ok (VArr ys)
  | _ => Err TypeError
  end.

(** [Boolean(v)]. *)
Definition isTruthy (v : val) : bool :=
  match v with
  | VUndefined | VNull => false
  | VBool b => b
  | VNum n => Number_truthy n
  | VStr s => negb (String.eqb s "")
  | VArr _ | VObj _ => true
  end.

(** [v > 0]. *)
Definition gt_zero (v : val) : result bool :=
  match v with
  | VUndefined | VNull => Ok false
  | VBool b => Ok b
  | VNum n => Ok (Number_gt_zero n)
  | VStr s => Ok (Number_gt_zero (StringToNumber s))
  | VArr _ | VObj _ =>
      let* s := ToString v in
      Ok (Number_gt_zero (StringToNumber s))
  end.

(** [v || d]. *)
Definition or_else (v d : val) : val := if isTruthy v then v else d.

(** * Requests, the state of the component and its events *)

Inductive RequestPart : Type :=
| InlineDataPart (base64 : val) (mime : string)
| TextPart (prompt : string).

Inductive RequestContents : Type :=
| PromptText (prompt : string)
| PromptParts (request_parts : list RequestPart).

Record Request : Type := {
  model : string;
  contents : RequestContents;
  config : RequestConfig
}.

Record MediaState : Type := {
  media_file : option File;
  media_preview : option string;
  media_type : option MediaKind;
  media_base64 : val
}.

Record HistoryItem : Type := {
  item_id : string;
  item_timestamp : number;
  item_mediaType : MediaKind;
  item_mediaSummary : val;
  item_platform : Platform;
  item_analysis : val;
  item_seo : val;
  item_thumbnailConcepts : val
}.

(** The state of the [App] component, one field per [useState]. *)
Record AppState : Type := {
  media : MediaState;
  loadingStep : LoadingStep;
  analysis : val;
  platform : Platform;
  seo : val;
  thumbnailConcepts : val;
  generatedThumbnail : option string;
  activePrompt : option string;
  genImgLoading : bool;
  history : list HistoryItem;
  showVault : bool
}.

Definition initialState : AppState := {|
  media := {| media_file := None; media_preview := None;
              media_type := None; media_base64 := VNull |};
  loadingStep := idle;
  analysis := VNull;
  platform := YouTube;
  seo := VNull;
  thumbnailConcepts := VArr [];
  generatedThumbnail := None;
  activePrompt := None;
  genImgLoading := false;
  history := [];
  showVault := false
|}.

(** The four gateway functions of [geminiService.ts], with their arguments. *)
Inductive GatewayCall : Type :=
| CallAnalyzeMedia (base64 : val) (mime : string)
| CallGenerateSEO (analysisArg : val) (platformArg : Platform)
| CallGenerateThumbnailPrompts (analysisArg : val)
| CallGenerateNanoBananaImage (prompt : string).

(** What a handler does that an observer can see, besides the state. *)
Inductive Event : Type :=
| EvRequest (r : Request)                            (* a round trip starts *)
| EvGateway (c : GatewayCall) (outcome : result val) (* a gateway call settles *)
| EvLoadingStep (p : LoadingStep)                    (* setLoadingStep(p) *)
| EvSetHistory (item : HistoryItem)                  (* the history updater runs *)
| EvDateNow (t : number)                             (* Date.now() *)
| EvConsoleError (e : JSError).                      (* console.error(e) *)

(** The environment: the backend's answer to the n-th round trip, the n-th
    reading of the clock, and the object URL the browser hands out. *)
Record Env : Type := {
  backend : nat -> Request -> result GenerateContentResponse;
  clock : nat -> number;
  createObjectURL : File -> string
}.

(** The component's state and the events so far, the newest first. *)
Record World : Type := {
  app : AppState;
  events : list Event
}.

Definition initialWorld : World := {| app := initialState; events := [] |}.

(** ** The monad of handlers: environment, state, exceptions

    A computation keeps the state it reached when it throws, as a
    JavaScript function does. *)

Definition M (A : Type) : Type := Env -> World -> result A * World.

Definition ret {A} (a : A) : M A := fun _ w => (Ok a, w).

Definition bind {A B} (c : M A) (k : A -> M B) : M B :=
  fun env w =>
    match c env w with
    | (Ok a, w') => k a env w'
    | (Err e, w') => (Err e, w')
    end.

Definition throw {A} (e : JSError) : M A := fun _ w => (Err e, w).

Definition lift {A} (r : result A) : M A := fun _ w => (r, w).

Definition emit (ev : Event) : M unit :=
  fun _ w => (Ok tt, {| app := app w; events := ev :: events w |}).

Definition getState : M AppState := fun _ w => (Ok (app w), w).

Definition modify (f : AppState -> AppState) : M unit :=
  fun _ w => (Ok tt, {| app := f (app w); events := events w |}).

(** [try { body } catch (err) { handler err } finally { fin }]. *)
Definition try_catch_finally {A} (body : M A) (handler : JSError -> M A)
    (fin : M unit) : M A :=
  fun env w =>
    let (r1, w1) := body env w in
    let (r2, w2) := match r1 with
                    | Ok a => (Ok a, w1)
                    | Err e => handler e env w1
                    end in
    let (r3, w3) := fin env w2 in
    match r3 with
    | Ok _ => (r2, w3)
    | Err e => (Err e, w3)
    end.

Notation "x <- c ;; k" := (bind c (fun x => k))
  (at level 61, c at next level, right associativity) : handler_scope.
Notation "c ;; k" := (bind c (fun _ => k))
  (at level 61, right associativity) : handler_scope.

(** * The AI gateway ([src/services/geminiService.ts]) *)

Definition add_event (ev : Event) (w : World) : World :=
  {| app := app w; events := ev :: events w |}.

(** The number of round trips started so far. *)
Fixpoint sent (evs : list Event) : nat :=
  match evs with
  | [] => 0
  | EvRequest _ :: rest => S (sent rest)
  | _ :: rest => sent rest
  end.

(** [await ai.models.generateContent(req)]. *)
Definition generateContent (req : Request) : M GenerateContentResponse :=
  fun env w => (backend env (sent (events w)) req, add_event (EvRequest req) w).

(** Runs the body of a gateway function and records how the call settled
    ([as_val] is the JavaScript value the result is). *)
Definition settle {A} (c : GatewayCall) (as_val : A -> val) (body : M A) : M A :=
  fun env w =>
    let (r, w') := body env w in
    (r, add_event (EvGateway c (rbind r (fun a => Ok (as_val a)))) w').

(** ** analyzeMedia *)

Definition analyzePromptText (isVideo : bool) : string :=
  "Thoroughly analyze this " ++ (if isVideo then "video" else "image") ++ ". " ++ nl
  ++ "          1. Provide a concise one-sentence summary." ++ nl
  ++ "          2. Determine the primary category (e.g., Tech, Comedy, Vlog, Educational)." ++ nl
  ++ "          3. Describe the overall mood (e.g., High-energy, Mysterious, Minimalist)." ++ nl
  ++ "          4. Evaluate the overall sentiment (e.g., Highly Positive, Provocative, Neutral, Warning, Empathetic)." ++ nl
  ++ "          5. Identify any potential controversial topics or sensitive themes that might trigger platform algorithms or community guidelines. For each topic, provide a brief explanation of why it might be flagged. If none, return an empty array." ++ nl
  ++ "          6. " ++ (if isVideo then "Identify 3-5 key pivotal moments or specific visual highlights that would grab a viewer's attention." else "Identify 3-5 key visual elements or focal points.") ++ nl
  ++ "          Output as JSON.".

Definition analysisSchema : Schema :=
  SchemaObject
    [ ("summary", SchemaString None);
      ("category", SchemaString None);
      ("mood", SchemaString None);
      ("sentiment", SchemaString None);
      ("controversies",
        SchemaArray
          (SchemaObject
             [ ("topic", SchemaString None); ("explanation", SchemaString None) ]
             [ "topic"; "explanation" ]));
      ("keyScenes", SchemaArray (SchemaString None)) ]
    [ "summary"; "category"; "mood"; "sentiment"; "controversies"; "keyScenes" ].

Definition analyzeMediaRequest (base64 : val) (mime : string) : Request :=
  let isVideo := String.prefix "video/" mime in
  {| model := "gemini-3-flash-preview";
     contents := PromptParts [ InlineDataPart base64 mime;
                               TextPart (analyzePromptText isVideo) ];
     config := JsonResponse analysisSchema |}.

Definition analyzeMedia (base64 : val) (mime : string) : M val :=
  settle (CallAnalyzeMedia base64 mime) (fun v => v)
    (response <- generateContent (analyzeMediaRequest base64 mime) ;;
     lift (JSON_parse (text_or (text response) "{}"))).

(** ** generateSEO *)

(** [analysis.keyScenes.join('; ')]. *)
Definition seoScenesContext (analysisArg : val) : result string :=
  let* keyScenes := Get analysisArg "keyScenes" in
  Array_join keyScenes "; ".

Definition controversyNote (topics : string) : string :=
  "Note: Content touches on sensitive topics: " ++ topics ++ ".".

(** [analysis.controversies.length > 0 ? `Note: ...` : ""]. *)
Definition seoControversyContext (analysisArg : val) : result string :=
  let* controversies := Get analysisArg "controversies" in
  let* len := Get controversies "length" in
  let* nonempty := gt_zero len in
  if nonempty then
    let* topics := Array_map (fun c => Get c "topic") controversies in
    let* joined := Array_join topics ", " in
    Ok (controversyNote joined)
  else Ok "".

Definition platformStrategies (p : Platform) : string :=
  match p with
  | YouTube =>
      "Focus on high curiosity gaps, storytelling stakes, and " ++ dq ++ "The Mistake" ++ dq ++ " hooks. Use punchy, dramatic language designed to stop the scroll. Titles should be optimized for Click-Through Rate (CTR)."
  | Instagram =>
      "Focus on aesthetic descriptors, emotive connection, and " ++ dq ++ "The Save/Share" ++ dq ++ " hooks. Use emojis strategically and keep the language visually evocative. Hooks should be shorter to fit the first 2-3 lines of a caption."
  | Twitter =>
      "Focus on provocative statements, contrarian takes, or data-driven curiosity. Use " ++ dq ++ "Thread Style" ++ dq ++ " hooks that force the user to click " ++ dq ++ "See More" ++ dq ++ ". Language should be sharp, intellectual, or highly controversial."
  | Pinterest =>
      "Focus on aspirational " ++ dq ++ "best of" ++ dq ++ " lists, how-to value, and " ++ dq ++ "The Transformation" ++ dq ++ " hooks. Use keyword-rich language that sounds like a search query. Visual aesthetics are key in descriptions."
  end.

(** The template literal of [generateSEO], its holes as arguments. *)
Definition seoPromptText (summary category mood sentiment scenesContext
    controversyContext platformName strategy : string) : string :=
  "Based on this analysis: " ++ dq ++ summary ++ dq ++ " (" ++ category ++ ", " ++ mood ++ " mood, " ++ sentiment ++ " sentiment). " ++ nl
  ++ "  Highlights: " ++ scenesContext ++ ". " ++ controversyContext ++ nl
  ++ "  " ++ nl
  ++ "  Generate a viral SEO package specifically optimized for " ++ platformName ++ "." ++ nl
  ++ "  Strategy for " ++ platformName ++ ": " ++ strategy ++ nl
  ++ "  " ++ nl
  ++ "  MANDATORY REQUIREMENTS:" ++ nl
  ++ "  1. Generate 3 different 'working hook' variations. Each hook MUST follow a specific psychological trigger (e.g., Negative Constraint, Outcome-First, Pattern Interrupt)." ++ nl
  ++ "  2. For each hook, provide a " ++ dq ++ "Strategic Insight" ++ dq ++ " explaining why this specific variation works on " ++ platformName ++ "." ++ nl
  ++ "  3. A viral title optimized for " ++ platformName ++ " algorithms." ++ nl
  ++ "  4. A platform-native SEO description (YouTube should be long, Twitter should be punchy)." ++ nl
  ++ "  5. 10 highly relevant keywords and 10 trending hashtags for " ++ platformName ++ "." ++ nl
  ++ "  " ++ nl
  ++ "  Output as JSON.".

(** [`${v.k}`]. *)
Definition interpolate (v : val) (k : string) : result string :=
  let* x := Get v k in
  ToString x.

(** The request text of [generateSEO], or the exception its construction
    throws. *)
Definition seoPrompt (analysisArg : val) (p : Platform) : result string :=
  let* scenesContext := seoScenesContext analysisArg in
  let* controversyContext := seoControversyContext analysisArg in
  let* summary := interpolate analysisArg "summary" in
  let* category := interpolate analysisArg "category" in
  let* mood := interpolate analysisArg "mood" in
  let* sentiment := interpolate analysisArg "sentiment" in
  Ok (seoPromptText summary category mood sentiment scenesContext
        controversyContext (Platform_name p) (platformStrategies p)).

Definition seoSchema : Schema :=
  SchemaObject
    [ ("hooks",
        SchemaArray
          (SchemaObject
             [ ("text", SchemaString None); ("explanation", SchemaString None) ]
             [ "text"; "explanation" ]));
      ("title", SchemaString None);
      ("description", SchemaString None);
      ("keywords", SchemaArray (SchemaString None));
      ("hashtags", SchemaArray (SchemaString None)) ]
    [ "hooks"; "title"; "description"; "keywords"; "hashtags" ].

Definition seoRequest (prompt : string) : Request :=
  {| model := "gemini-3-flash-preview";
     contents := PromptText prompt;
     config := JsonResponse seoSchema |}.

Definition generateSEO (analysisArg : val) (p : Platform) : M val :=
  settle (CallGenerateSEO analysisArg p) (fun v => v)
    (prompt <- lift (seoPrompt analysisArg p) ;;
     response <- generateContent (seoRequest prompt) ;;
     lift (JSON_parse (text_or (text response) "{}"))).

(** ** generateThumbnailPrompts *)

(** The ten aesthetic styles the request names. *)
Definition THUMBNAIL_STYLES : list string :=
  [ "Hyperrealistic CGI"; "Cinematic Lighting"; "Retro VHS"; "Minimalist Flat";
    "Surreal Abstract"; "Documentary Raw"; "Glitchcore"; "Cyberpunk Neon";
    "Pastel Goth"; "Lo-fi Anime Aesthetic" ].

(** The template literal of [generateThumbnailPrompts]. *)
Definition thumbnailPromptText (summary scenesContext : string) : string :=
  "Generate 10 dramatic, ultra-clickbait thumbnail prompt ideas for an AI image generator (Nano Banana) based on: " ++ dq ++ summary ++ dq ++ "." ++ nl
  ++ "  Highlights: " ++ scenesContext ++ "." ++ nl
  ++ "  " ++ nl
  ++ "  MANDATORY REQUIREMENT: Provide a diverse range of visual aesthetics. You must include at least one prompt for each of these styles:" ++ nl
  ++ "  - 'Hyperrealistic CGI': Unreal Engine 5, Octane render, intricate details, ray-tracing." ++ nl
  ++ "  - 'Cinematic Lighting': Dramatic noir shadows, volumetric god rays, anamorphic lens flares." ++ nl
  ++ "  - 'Retro VHS': 90s aesthetic, tracking lines, color bleed, lo-fi glitch." ++ nl
  ++ "  - 'Minimalist Flat': Clean vector lines, bold flat colors, modern typography integration." ++ nl
  ++ "  - 'Surreal Abstract': Liquid metal textures, impossible geometry, neon ethereal glows." ++ nl
  ++ "  - 'Documentary Raw': Grainy film stock, high ISO, handheld shaky-cam look, authentic." ++ nl
  ++ "  - 'Glitchcore': Distorted digital artifacts, vibrant clashing colors, pixelation, data-moshing vibes, hyper-saturated." ++ nl
  ++ "  - 'Cyberpunk Neon': Dystopian high-tech, rain-slicked futuristic streets, glowing cyan and magenta signage, techwear fashion." ++ nl
  ++ "  - 'Pastel Goth': Cute meets creepy, soft pink and lavender palettes paired with dark gothic motifs, bats, lace, and eerie symbols." ++ nl
  ++ "  - 'Lo-fi Anime Aesthetic': 90s retro anime style, soft film grain, cozy interior lighting, city pop color palettes, nostalgic atmosphere." ++ nl
  ++ "  " ++ nl
  ++ "  Each prompt should be 2-3 sentences long, describing the scene with technical image generation keywords." ++ nl
  ++ "  Output as a JSON object with a 'concepts' array containing objects with 'prompt' and 'style' fields.".

Definition thumbnailPrompt (analysisArg : val) : result string :=
  let* keyScenes := Get analysisArg "keyScenes" in
  let* scenesContext := Array_join keyScenes ", " in
  let* summary := interpolate analysisArg "summary" in
  Ok (thumbnailPromptText summary scenesContext).

Definition thumbnailSchema : Schema :=
  SchemaObject
    [ ("concepts",
        SchemaArray
          (SchemaObject
             [ ("prompt", SchemaString None);
               ("style",
                 SchemaString
                   (Some "The aesthetic style name, e.g., 'Glitchcore'")) ]
             [ "prompt"; "style" ])) ]
    [ "concepts" ].

Definition thumbnailRequest (prompt : string) : Request :=
  {| model := "gemini-3-flash-preview";
     contents := PromptText prompt;
     config := JsonResponse thumbnailSchema |}.

Definition generateThumbnailPrompts (analysisArg : val) : M val :=
  settle (CallGenerateThumbnailPrompts analysisArg) (fun v => v)
    (prompt <- lift (thumbnailPrompt analysisArg) ;;
     response <- generateContent (thumbnailRequest prompt) ;;
     lift (JSON_parse (text_or (text response) empty_concepts_text))).

(** ** generateNanoBananaImage *)

Definition imageRequest (prompt : string) : Request :=
  {| model := "gemini-2.5-flash-image";
     contents := PromptParts [ TextPart prompt ];
     config := ImageConfig "16:9" "1K" |}.

Definition has_inlineData (p : Part) : bool :=
  match inlineData p with
  | Some _ => true
  | None => false
  end.

(** [response.candidates?.[0]?.content?.parts.find(p => p.inlineData)]:
    [undefined] ([None]) when a link of the optional chain is missing or no
    part carries inline data; a [content] without [parts] throws. *)
Definition findInlinePart (response : GenerateContentResponse)
  : result (option Part) :=
  match candidates response with
  | None => Ok None
  | Some cs =>
      match cs with
      | [] => Ok None
      | c :: _ =>
          match content c with
          | None => Ok None
          | Some ct =>
              match parts ct with
              | None => Err TypeError
              | Some ps => Ok (List.find has_inlineData ps)
              end
          end
      end
  end.

Definition option_toString (s : option string) : string :=
  match s with
  | Some x => x
  | None => "undefined"
  end.

Definition imageOfResponse (response : GenerateContentResponse)
  : result string :=
  let* part := findInlinePart response in
  match part with
  | Some p =>
      match inlineData p with
      | Some blob => Ok ("data:image/png;base64," ++ option_toString (data blob))%string
      | None => Err (ErrorMsg "No image generated")
      end
  | None => Err (ErrorMsg "No image generated")
  end.

Definition generateNanoBananaImage (prompt : string) : M string :=
  settle (CallGenerateNanoBananaImage prompt) VStr
    (response <- generateContent (imageRequest prompt) ;;
     lift (imageOfResponse response)).

(** * The component ([src/App.tsx]) *)

(** ** State updates, one per [useState] setter *)

Definition with_media (x : MediaState) (s : AppState) : AppState :=
  {| media := x;
     loadingStep := loadingStep s;
     analysis := analysis s;
     platform := platform s;
     seo := seo s;
     thumbnailConcepts := thumbnailConcepts s;
     generatedThumbnail := generatedThumbnail s;
     activePrompt := activePrompt s;
     genImgLoading := genImgLoading s;
     history := history s;
     showVault := showVault s |}.

Definition with_loadingStep (x : LoadingStep) (s : AppState) : AppState :=
  {| media := media s;
     loadingStep := x;
     analysis := analysis s;
     platform := platform s;
     seo := seo s;
     thumbnailConcepts := thumbnailConcepts s;
     generatedThumbnail := generatedThumbnail s;
     activePrompt := activePrompt s;
     genImgLoading := genImgLoading s;
     history := history s;
     showVault := showVault s |}.

Definition with_analysis (x : val) (s : AppState) : AppState :=
  {| media := media s;
     loadingStep := loadingStep s;
     analysis := x;
     platform := platform s;
     seo := seo s;
     thumbnailConcepts := thumbnailConcepts s;
     generatedThumbnail := generatedThumbnail s;
     activePrompt := activePrompt s;
     genImgLoading := genImgLoading s;
     history := history s;
     showVault := showVault s |}.

Definition with_platform (x : Platform) (s : AppState) : AppState :=
  {| media := media s;
     loadingStep := loadingStep s;
     analysis := analysis s;
     platform := x;
     seo := seo s;
     thumbnailConcepts := thumbnailConcepts s;
     generatedThumbnail := generatedThumbnail s;
     activePrompt := activePrompt s;
     genImgLoading := genImgLoading s;
     history := history s;
     showVault := showVault s |}.

Definition with_seo (x : val) (s : AppState) : AppState :=
  {| media := media s;
     loadingStep := loadingStep s;
     analysis := analysis s;
     platform := platform s;
     seo := x;
     thumbnailConcepts := thumbnailConcepts s;
     generatedThumbnail := generatedThumbnail s;
     activePrompt := activePrompt s;
     genImgLoading := genImgLoading s;
     history := history s;
     showVault := showVault s |}.

Definition with_thumbnailConcepts (x : val) (s : AppState) : AppState :=
  {| media := media s;
     loadingStep := loadingStep s;
     analysis := analysis s;
     platform := platform s;
     seo := seo s;
     thumbnailConcepts := x;
     generatedThumbnail := generatedThumbnail s;
     activePrompt := activePrompt s;
     genImgLoading := genImgLoading s;
     history := history s;
     showVault := showVault s |}.

Definition with_generatedThumbnail (x : option string) (s : AppState) : AppState :=
  {| media := media s;
     loadingStep := loadingStep s;
     analysis := analysis s;
     platform := platform s;
     seo := seo s;
     thumbnailConcepts := thumbnailConcepts s;
     generatedThumbnail := x;
     activePrompt := activePrompt s;
     genImgLoading := genImgLoading s;
     history := history s;
     showVault := showVault s |}.

Definition with_activePrompt (x : option string) (s : AppState) : AppState :=
  {| media := media s;
     loadingStep := loadingStep s;
     analysis := analysis s;
     platform := platform s;
     seo := seo s;
     thumbnailConcepts := thumbnailConcepts s;
     generatedThumbnail := generatedThumbnail s;
     activePrompt := x;
     genImgLoading := genImgLoading s;
     history := history s;
     showVault := showVault s |}.

Definition with_genImgLoading (x : bool) (s : AppState) : AppState :=
  {| media := media s;
     loadingStep := loadingStep s;
     analysis := analysis s;
     platform := platform s;
     seo := seo s;
     thumbnailConcepts := thumbnailConcepts s;
     generatedThumbnail := generatedThumbnail s;
     activePrompt := activePrompt s;
     genImgLoading := x;
     history := history s;
     showVault := showVault s |}.

Definition with_history (x : list HistoryItem) (s : AppState) : AppState :=
  {| media := media s;
     loadingStep := loadingStep s;
     analysis := analysis s;
     platform := platform s;
     seo := seo s;
     thumbnailConcepts := thumbnailConcepts s;
     generatedThumbnail := generatedThumbnail s;
     activePrompt := activePrompt s;
     genImgLoading := genImgLoading s;
     history := x;
     showVault := showVault s |}.

Definition with_showVault (x : bool) (s : AppState) : AppState :=
  {| media := media s;
     loadingStep := loadingStep s;
     analysis := analysis s;
     platform := platform s;
     seo := seo s;
     thumbnailConcepts := thumbnailConcepts s;
     generatedThumbnail := generatedThumbnail s;
     activePrompt := activePrompt s;
     genImgLoading := genImgLoading s;
     history := history s;
     showVault := x |}.

Definition setMedia (m : MediaState) : M unit := modify (with_media m).
Definition setAnalysis (v : val) : M unit := modify (with_analysis v).
Definition setPlatform (p : Platform) : M unit := modify (with_platform p).
Definition setSeo (v : val) : M unit := modify (with_seo v).
Definition setThumbnailConcepts (v : val) : M unit :=
  modify (with_thumbnailConcepts v).
Definition setGeneratedThumbnail (img : option string) : M unit :=
  modify (with_generatedThumbnail img).
Definition setActivePrompt (p : option string) : M unit :=
  modify (with_activePrompt p).
Definition setGenImgLoading (b : bool) : M unit := modify (with_genImgLoading b).
Definition setShowVault (b : bool) : M unit := modify (with_showVault b).

Definition setLoadingStep (p : LoadingStep) : M unit :=
  emit (EvLoadingStep p) ;; modify (with_loadingStep p).

(** [setHistory(updater)]. *)
Definition setHistory (updater : list HistoryItem -> list HistoryItem) : M unit :=
  modify (fun s => with_history (updater (history s)) s).

Definition console_error (e : JSError) : M unit := emit (EvConsoleError e).

(** The number of clock readings so far. *)
Fixpoint clock_reads (evs : list Event) : nat :=
  match evs with
  | [] => 0
  | EvDateNow _ :: rest => S (clock_reads rest)
  | _ :: rest => clock_reads rest
  end.

(** [Date.now()]. *)
Definition Date_now : M number :=
  fun env w =>
    let t := clock env (clock_reads (events w)) in
    (Ok t, add_event (EvDateNow t) w).

(** ** fileToBase64 *)

Fixpoint after_comma (s : string) : option string :=
  match s with
  | EmptyString => None
  | String c rest => if Ascii.eqb c "," then Some rest else after_comma rest
  end.

Fixpoint before_comma (s : string) : string :=
  match s with
  | EmptyString => EmptyString
  | String c rest => if Ascii.eqb c "," then EmptyString else String c (before_comma rest)
  end.

(** [s.split(',')[1]]: the text between the first comma and the next one,
    [undefined] when [s] has no comma. *)
Definition split_comma_1 (s : string) : val :=
  match after_comma s with
  | Some rest => VStr (before_comma rest)
  | None => VUndefined
  end.

Definition fileToBase64 (f : File) : M val :=
  match file_dataURL f with
  | Ok url => ret (split_comma_1 url)
  | Err e => throw e
  end.

(** ** The history store *)

(** [[historyItem, ...prev].slice(0, 20)]. *)
Definition insert (historyItem : HistoryItem) (prev : list HistoryItem)
  : list HistoryItem :=
  firstn 20 (historyItem :: prev).

(** What the mount effect does to the [history] state. *)
Inductive HistoryUpdate : Type :=
| KeepHistory                   (* setHistory is not called *)
| SetHistoryTo (parsed : val).  (* setHistory(JSON.parse(saved)) *)

(** The effect that loads the history, given what
    [localStorage.getItem('viralvision_v2')] returned: [Err] is the
    exception that leaves the effect. *)
Definition loadHistory (saved : option string) : result HistoryUpdate :=
  match saved with
  | None => Ok KeepHistory
  | Some s =>
      if String.eqb s "" then Ok KeepHistory
      else
        let* parsed := JSON_parse s in
        Ok (SetHistoryTo parsed)
  end.

(** ** processFlow *)

Definition processFlow (file : File) (selectedPlatform : Platform) : M unit :=
  let type := if String.prefix "video" (file_type file) then video else image in
  preview <- (fun env w => (Ok (createObjectURL env file), w)) ;;
  base64 <- fileToBase64 file ;;
  setMedia {| media_file := Some file; media_preview := Some preview;
              media_type := Some type; media_base64 := base64 |} ;;
  setAnalysis VNull ;;
  setSeo VNull ;;
  setThumbnailConcepts (VArr []) ;;
  setGeneratedThumbnail None ;;
  try_catch_finally
    (setLoadingStep analyzing ;;
     analysisRes <- analyzeMedia base64 (file_type file) ;;
     setAnalysis analysisRes ;;
     setLoadingStep optimizing ;;
     seoRes <- generateSEO analysisRes selectedPlatform ;;
     setSeo seoRes ;;
     setLoadingStep visualizing ;;
     thumbRes <- generateThumbnailPrompts analysisRes ;;
     concepts <- lift (Get thumbRes "concepts") ;;
     setThumbnailConcepts concepts ;;
     idNow <- Date_now ;;
     timestampNow <- Date_now ;;
     summary <- lift (Get analysisRes "summary") ;;
     concepts' <- lift (Get thumbRes "concepts") ;;
     let historyItem :=
       {| item_id := Number_toString idNow;
          item_timestamp := timestampNow;
          item_mediaType := type;
          item_mediaSummary := summary;
          item_platform := selectedPlatform;
          item_analysis := analysisRes;
          item_seo := seoRes;
          item_thumbnailConcepts := concepts' |} in
     emit (EvSetHistory historyItem) ;;
     setHistory (insert historyItem))
    (fun err => console_error err)
    (setLoadingStep idle).

(** The upload control calls [processFlow(file)]: the platform defaults to
    the selected one. *)
Definition submitMedia (file : File) : M unit :=
  s <- getState ;;
  processFlow file (platform s).

(** ** handlePlatformChange *)

Definition handlePlatformChange (newPlatform : Platform) : M unit :=
  s <- getState ;;
  setPlatform newPlatform ;;
  if isTruthy (analysis s) then
    setLoadingStep optimizing ;;
    seoRes <- generateSEO (analysis s) newPlatform ;;
    setSeo seoRes ;;
    setLoadingStep idle
  else ret tt.

(** ** handleForgeThumbnail *)

Definition handleForgeThumbnail (prompt : string) : M unit :=
  setGenImgLoading true ;;
  setActivePrompt (Some prompt) ;;
  try_catch_finally
    (img <- generateNanoBananaImage prompt ;;
     setGeneratedThumbnail (Some img))
    (fun err => console_error err)
    (setGenImgLoading false).


(** ** Recalling a run from the vault *)

Definition recallRun (item : HistoryItem) : M unit :=
  setAnalysis (item_analysis item) ;;
  setSeo (or_else (item_seo item) VNull) ;;
  setThumbnailConcepts (or_else (item_thumbnailConcepts item) (VArr [])) ;;
  setPlatform (item_platform item) ;;
  setShowVault false.

(** * Observations of a run *)

(** The gateway calls among the events, the oldest first, each with how it
    settled. *)
Fixpoint gateway_log (evs : list Event) : list (GatewayCall * result val) :=
  match evs with
  | [] => []
  | EvGateway c outcome :: rest => gateway_log rest ++ [(c, outcome)]
  | _ :: rest => gateway_log rest
  end.

(** The requests sent to the backend, the oldest first. *)
Fixpoint request_log (evs : list Event) : list Request :=
  match evs with
  | [] => []
  | EvRequest r :: rest => request_log rest ++ [r]
  | _ :: rest => request_log rest
  end.

(** The values [setLoadingStep] was called with, the oldest first. *)
Fixpoint phase_log (evs : list Event) : list LoadingStep :=
  match evs with
  | [] => []
  | EvLoadingStep p :: rest => phase_log rest ++ [p]
  | _ :: rest => phase_log rest
  end.

(** The errors handed to [console.error], the oldest first. *)
Fixpoint console_log (evs : list Event) : list JSError :=
  match evs with
  | [] => []
  | EvConsoleError e :: rest => console_log rest ++ [e]
  | _ :: rest => console_log rest
  end.

(** The records the history updater inserted, the newest first. *)
Fixpoint commits (evs : list Event) : list HistoryItem :=
  match evs with
  | [] => []
  | EvSetHistory item :: rest => item :: commits rest
  | _ :: rest => commits rest
  end.


(** The stage calls of a run, in order, up to and including the first one
    that failed. *)
Inductive StageCalls (base64 : val) (mime : string) (p : Platform)
  : list (GatewayCall * result val) -> Prop :=
| AnalysisFailed e :
    StageCalls base64 mime p [ (CallAnalyzeMedia base64 mime, Err e) ]
| SeoFailed a e :
    StageCalls base64 mime p
      [ (CallAnalyzeMedia base64 mime, Ok a); (CallGenerateSEO a p, Err e) ]
| ThumbnailsFailed a s e :
    StageCalls base64 mime p
      [ (CallAnalyzeMedia base64 mime, Ok a); (CallGenerateSEO a p, Ok s);
        (CallGenerateThumbnailPrompts a, Err e) ]
| StagesSucceeded a s t :
    StageCalls base64 mime p
      [ (CallAnalyzeMedia base64 mime, Ok a); (CallGenerateSEO a p, Ok s);
        (CallGenerateThumbnailPrompts a, Ok t) ].

(** ** What each gateway function returns, as a function of the backend's
    answer to the round trip number [n] *)

Definition analyzeMedia_result (env : Env) (n : nat) (base64 : val)
    (mime : string) : result val :=
  let* response := backend env n (analyzeMediaRequest base64 mime) in
  JSON_parse (text_or (text response) "{}").

Definition generateSEO_result (env : Env) (n : nat) (analysisArg : val)
    (p : Platform) : result val :=
  let* prompt := seoPrompt analysisArg p in
  let* response := backend env n (seoRequest prompt) in
  JSON_parse (text_or (text response) "{}").

Definition generateThumbnailPrompts_result (env : Env) (n : nat)
    (analysisArg : val) : result val :=
  let* prompt := thumbnailPrompt analysisArg in
  let* response := backend env n (thumbnailRequest prompt) in
  JSON_parse (text_or (text response) empty_concepts_text).

Definition generateNanoBananaImage_result (env : Env) (n : nat)
    (prompt : string) : result string :=
  let* response := backend env n (imageRequest prompt) in
  imageOfResponse response.

(** ** Well-typed analyses *)

Record Controversy : Type := {
  topic : string;
  explanation : string
}.

(** [AnalysisResult] of [types.ts]. *)
Record AnalysisResult : Type := {
  summary : string;
  category : string;
  mood : string;
  sentiment : string;
  controversies : list Controversy;
  keyScenes : list string
}.

Definition Controversy_val (c : Controversy) : val :=
  VObj [ ("topic", VStr (topic c)); ("explanation", VStr (explanation c)) ].

(** The run-time value of a well-typed analysis. *)
Definition AnalysisResult_val (a : AnalysisResult) : val :=
  VObj [ ("summary", VStr (summary a));
         ("category", VStr (category a));
         ("mood", VStr (mood a));
         ("sentiment", VStr (sentiment a));
         ("controversies", VArr (map Controversy_val (controversies a)));
         ("keyScenes", VArr (map VStr (keyScenes a))) ].

(** ** Responses without an image *)



(** ** The commands of the presentation layer and the reachable states *)

Inductive Command : Type :=
| SubmitMedia (file : File)
| ChangePlatform (p : Platform)
| ForgeThumbnail (prompt : string)
| RecallRun (item : HistoryItem)
| ShowVault (b : bool).

Definition handle (c : Command) : M unit :=
  match c with
  | SubmitMedia file => submitMedia file
  | ChangePlatform p => handlePlatformChange p
  | ForgeThumbnail prompt => handleForgeThumbnail prompt
  | RecallRun item => recallRun item
  | ShowVault b => setShowVault b
  end.

(** The vault lists the records of the history: only those can be recalled. *)
Definition enabled (c : Command) (w : World) : Prop :=
  match c with
  | RecallRun item => In item (history (app w))
  | _ => True
  end.

(** The worlds a user can bring about: from the initial state, by commands,
    and by leaving and mounting the component again, which starts from the
    initial state with the history the store kept (the blob store returns
    what the persist effect wrote, and the log is read back as written). *)
Inductive reachable (env : Env) : World -> Prop :=
| reach_initial : reachable env initialWorld
| reach_command w c :
    reachable env w -> enabled c w -> reachable env (snd (handle c env w))
| reach_remount w :
    reachable env w ->
    reachable env {| app := with_history (history (app w)) initialState;
                     events := events w |}.

(** ** What the history holds *)

(** The history is the twenty newest committed records, the newest first. *)
Definition history_invariant (w : World) : Prop :=
  history (app w) = firstn 20 (commits (events w)).

(** ** Readings of the specification that the code does not bear out *)


(** A platform change makes one [generateSEO] call and replaces the SEO
    package by its result. *)
Definition platform_change_replaces_seo (env : Env) (w : World) (p : Platform)
  : Prop :=
  let w' := snd (handlePlatformChange p env w) in
  forall new,
    events w' = new ++ events w ->
    exists seoRes,
      gateway_log new = [ (CallGenerateSEO (analysis (app w)) p, Ok seoRes) ] /\
      seo (app w') = seoRes.

(** A stored blob that fails to parse loads as the empty history. *)
Definition unparseable_blob_loads_empty (saved : string) : Prop :=
  (exists e, JSON_parse saved = Err e) ->
  loadHistory (Some saved) = Ok KeepHistory \/
  loadHistory (Some saved) = Ok (SetHistoryTo (VArr [])).

(** A batch of exactly ten concepts whose styles cover the ten style names. *)
Definition ten_concepts_covering_styles (t : val) : Prop :=
  exists concepts,
    Get t "concepts" = Ok (VArr concepts) /\
    List.length concepts = 10 /\
    forall style,
      In style THUMBNAIL_STYLES ->
      exists c, In c concepts /\ Get c "style" = Ok (VStr style).

(** Whatever [generateThumbnailPrompts] returns is such a batch. *)
Definition thumbnails_always_ten (env : Env) (w : World) (a : val) : Prop :=
  forall t,
    fst (generateThumbnailPrompts a env w) = Ok t ->
    ten_concepts_covering_styles t.

End Model.

Arguments RequestPart : clear implicits.
Arguments RequestContents : clear implicits.
Arguments Request : clear implicits.
Arguments MediaState : clear implicits.
Arguments HistoryItem : clear implicits.
Arguments AppState : clear implicits.
Arguments GatewayCall : clear implicits.
Arguments Event : clear implicits.
Arguments Env : clear implicits.
Arguments World : clear implicits.
Arguments M : clear implicits.
Arguments HistoryUpdate : clear implicits.
Arguments Command : clear implicits.

(** ** Substrings *)

(** [p] occurs in [s]. *)
Definition Infix (p s : string) : Prop :=
  exists before after, s = (before ++ p ++ after)%string.

Fixpoint infixb (p s : string) : bool :=
  String.prefix p s ||
  match s with
  | EmptyString => false
  | String _ rest => infixb p rest
  end.

(** * What a run derives from its inputs *)

Section Derived.
Context {number : Type} {R : Runtime number}.
Local Abbreviation val := (value number).
Local Abbreviation Env := (Env number).
Local Abbreviation World := (World number).
Local Abbreviation HistoryItem := (HistoryItem number).
Local Abbreviation Request := (Request number).

(** The media kind [processFlow] derives from a file. *)
Definition kindOf (file : File) : MediaKind :=
  if String.prefix "video" (file_type file) then video else image.

(** The requests a stage sends: one when its prompt could be built, none
    otherwise. *)
Definition requestOf (prompt : result string) (mk : string -> Request)
  : list Request :=
  match prompt with
  | Ok text => [mk text]
  | Err _ => []
  end.

(** The record a run assembles from its three results. *)
Definition recordOf (env : Env) (w : World) (file : File) (p : Platform)
    (a s summary concepts : val) : HistoryItem :=
  {| item_id := Number_toString (clock env (clock_reads (events w)));
     item_timestamp := clock env (S (clock_reads (events w)));
     item_mediaType := kindOf file;
     item_mediaSummary := summary;
     item_platform := p;
     item_analysis := a;
     item_seo := s;
     item_thumbnailConcepts := concepts |}.

(** The controversy note [generateSEO] writes for a typed list of
    controversies. *)
Definition controversyContextOf (cs : list Controversy) : string :=
  match cs with
  | [] => ""
  | _ :: _ => controversyNote (join_strings ", " (map topic cs))
  end.

End Derived.

(** * An executable run time

    Numbers are the integers, printed in decimal, and [JSON_parse] reads the
    JSON texts whose numbers are integers; any other text is a syntax
    error.  The instance shows that the interface [Runtime] can be met, and
    lets the handlers run on concrete inputs. *)

Module Concrete.

#[warnings="-register-all"]
Inductive json : Type :=
| JNull
| JBool (b : bool)
| JNum (z : Z)
| JStr (s : string)
| JArr (elements : list json)
| JObj (members : list (string * json)).

Fixpoint val_of_json (j : json) : value Z :=
  match j with
  | JNull => VNull
  | JBool b => VBool b
  | JNum z => VNum z
  | JStr s => VStr s
  | JArr l => VArr (map val_of_json l)
  | JObj m => VObj (map (fun kv => match kv with (k, v) => (k, val_of_json v) end) m)
  end.

Definition is_ws (c : ascii) : bool :=
  let n := nat_of_ascii c in
  Nat.eqb n 32 || Nat.eqb n 10 || Nat.eqb n 13 || Nat.eqb n 9.

Definition is_digit (c : ascii) : bool :=
  let n := nat_of_ascii c in
  Nat.leb 48 n && Nat.leb n 57.

Fixpoint skip_ws (s : string) : string :=
  match s with
  | EmptyString => EmptyString
  | String c r => if is_ws c then skip_ws r else s
  end.

(** [expect p s]: the rest of [s] after its prefix [p]. *)
Fixpoint expect (p s : string) : option string :=
  match p with
  | EmptyString => Some s
  | String c p' =>
      match s with
      | String d s' => if Ascii.eqb c d then expect p' s' else None
      | EmptyString => None
      end
  end.

Fixpoint take_digits (s : string) : string * string :=
  match s with
  | EmptyString => (EmptyString, EmptyString)
  | String c r =>
      if is_digit c then
        let (ds, rest) := take_digits r in (String c ds, rest)
      else (EmptyString, s)
  end.

Definition digits_value (ds : string) : option Z :=
  option_map Z.of_int (NilZero.int_of_string ds).

(** An integer literal: an optional minus sign and digits with no
    superfluous leading zero. *)
Definition parse_number (s : string) : option (Z * string) :=
  let (negative, r) :=
    match s with
    | String c r' => if Ascii.eqb c "-" then (true, r') else (false, s)
    | EmptyString => (false, s)
    end in
  let (ds, rest) := take_digits r in
  match ds with
  | EmptyString => None
  | String d more =>
      if Ascii.eqb d "0" && negb (String.eqb more "") then None
      else
        match digits_value ds with
        | Some z => Some (if negative then Z.opp z else z, rest)
        | None => None
        end
  end.

Definition quote_char : ascii := ascii_of_nat 34.
Definition backslash_char : ascii := ascii_of_nat 92.

Definition unescape (c : ascii) : option ascii :=
  if Ascii.eqb c quote_char then Some quote_char
  else if Ascii.eqb c backslash_char then Some backslash_char
  else if Ascii.eqb c "/" then Some "/"%char
  else if Ascii.eqb c "n" then Some (ascii_of_nat 10)
  else if Ascii.eqb c "r" then Some (ascii_of_nat 13)
  else if Ascii.eqb c "t" then Some (ascii_of_nat 9)
  else if Ascii.eqb c "b" then Some (ascii_of_nat 8)
  else if Ascii.eqb c "f" then Some (ascii_of_nat 12)
  else None.

(** The characters of a string literal after its opening quote, and the
    text after its closing quote. *)
Fixpoint parse_string_body (s : string) : option (string * string) :=
  match s with
  | EmptyString => None
  | String c r =>
      if Ascii.eqb c quote_char then Some (EmptyString, r)
      else if Ascii.eqb c backslash_char then
        match r with
        | String e r' =>
            match unescape e, parse_string_body r' with
            | Some ch, Some (body, rest) => Some (String ch body, rest)
            | _, _ => None
            end
        | EmptyString => None
        end
      else if Nat.ltb (nat_of_ascii c) 32 then None
      else
        match parse_string_body r with
        | Some (body, rest) => Some (String c body, rest)
        | None => None
        end
  end.

Fixpoint parse_value (fuel : nat) (s : string) : option (json * string) :=
  match fuel with
  | 0 => None
  | S fuel' =>
      match skip_ws s with
      | EmptyString => None
      | String c r =>
          if Ascii.eqb c "n" then option_map (pair JNull) (expect "ull" r)
          else if Ascii.eqb c "t" then option_map (pair (JBool true)) (expect "rue" r)
          else if Ascii.eqb c "f" then option_map (pair (JBool false)) (expect "alse" r)
          else if Ascii.eqb c quote_char then
            match parse_string_body r with
            | Some (str, rest) => Some (JStr str, rest)
            | None => None
            end
          else if Ascii.eqb c "[" then
            match skip_ws r with
            | EmptyString => None
            | String c' r' =>
                if Ascii.eqb c' "]" then Some (JArr [], r')
                else
                  match parse_elements fuel' r with
                  | Some (vs, rest) => Some (JArr vs, rest)
                  | None => None
                  end
            end
          else if Ascii.eqb c "{" then
            match skip_ws r with
            | EmptyString => None
            | String c' r' =>
                if Ascii.eqb c' "}" then Some (JObj [], r')
                else
                  match parse_members fuel' r with
                  | Some (ms, rest) => Some (JObj ms, rest)
                  | None => None
                  end
            end
          else
            match parse_number (String c r) with
            | Some (z, rest) => Some (JNum z, rest)
            | None => None
            end
      end
  end
with parse_elements (fuel : nat) (s : string) : option (list json * string) :=
  match fuel with
  | 0 => None
  | S fuel' =>
      match parse_value fuel' s with
      | Some (v, r) =>
          match skip_ws r with
          | EmptyString => None
          | String c r' =>
              if Ascii.eqb c "," then
                match parse_elements fuel' r' with
                | Some (vs, rest) => Some (v :: vs, rest)
                | None => None
                end
              else if Ascii.eqb c "]" then Some ([v], r')
              else None
          end
      | None => None
      end
  end
with parse_members (fuel : nat) (s : string)
  : option (list (string * json) * string) :=
  match fuel with
  | 0 => None
  | S fuel' =>
      match skip_ws s with
      | EmptyString => None
      | String c r =>
          if Ascii.eqb c quote_char then
            match parse_string_body r with
            | Some (k, r1) =>
                match skip_ws r1 with
                | EmptyString => None
                | String c1 r2 =>
                    if Ascii.eqb c1 ":" then
                      match parse_value fuel' r2 with
                      | Some (v, r3) =>
                          match skip_ws r3 with
                          | EmptyString => None
                          | String c3 r4 =>
                              if Ascii.eqb c3 "," then
                                match parse_members fuel' r4 with
                                | Some (ms, rest) => Some ((k, v) :: ms, rest)
                                | None => None
                                end
                              else if Ascii.eqb c3 "}" then Some ([(k, v)], r4)
                              else None
                          end
                      | None => None
                      end
                    else None
                end
            | None => None
            end
          else None
      end
  end.

Definition parse_json (s : string) : option json :=
  match parse_value (2 * String.length s + 2) s with
  | Some (j, rest) =>
      match skip_ws rest with
      | EmptyString => Some j
      | String _ _ => None
      end
  | None => None
  end.

Definition parse (s : string) : result (value Z) :=
  match parse_json s with
  | Some j => Ok (val_of_json j)
  | None => Err SyntaxError
  end.

Definition toString (z : Z) : string :=
  NilZero.string_of_int (Z.to_int z).

(** [Number(s)] on decimal integer literals; any other string converts to
    NaN, which shares with 0 that it is falsy and not above zero. *)
Definition toNumber (s : string) : Z :=
  match digits_value s with
  | Some z => z
  | None => 0%Z
  end.

End Concrete.

(** * Concrete inputs *)

Module Example.

Definition q (s : string) : string := dq ++ s ++ dq.

(** A response text that conforms to the analysis schema. *)
Definition analysis_text : string :=
  "{" ++ q "summary" ++ ":" ++ q "A cat asleep on a sofa" ++ ","
  ++ q "category" ++ ":" ++ q "Pets" ++ ","
  ++ q "mood" ++ ":" ++ q "Calm" ++ ","
  ++ q "sentiment" ++ ":" ++ q "Positive" ++ ","
  ++ q "controversies" ++ ":[],"
  ++ q "keyScenes" ++ ":[" ++ q "cat" ++ "," ++ q "sofa" ++ "]}".

Definition analysis_record : AnalysisResult :=
  {| summary := "A cat asleep on a sofa"; category := "Pets"; mood := "Calm";
     sentiment := "Positive"; controversies := []; keyScenes := ["cat"; "sofa"] |}.

Definition text_response (t : option string) : GenerateContentResponse :=
  {| candidates := None; text := t |}.

(** A response that carries an image in its first candidate. *)
Definition image_response (payload : string) : GenerateContentResponse :=
  {| candidates :=
       Some [ {| content :=
                   Some {| parts :=
                             Some [ {| part_text := Some "Here it is";
                                       inlineData := None |};
                                    {| part_text := None;
                                       inlineData :=
                                         Some {| data := Some payload;
                                                 mimeType := Some "image/png" |} |} ] |} |} ];
     text := None |}.

(** A response whose only part is text. *)
Definition no_image_response : GenerateContentResponse :=
  {| candidates :=
       Some [ {| content :=
                   Some {| parts :=
                             Some [ {| part_text := Some "I cannot draw this";
                                       inlineData := None |} ] |} |} ];
     text := Some "I cannot draw this" |}.

Definition png_file : File :=
  {| file_type := "image/png";
     file_dataURL := Ok "data:image/png;base64,iVBORw0KGgo=" |}.

(** An environment whose backend gives the listed answers in turn, and
    rejects any further request. *)
Definition scripted (answers : list (result GenerateContentResponse))
  : Env Z :=
  @Build_Env Z
    (fun n _ => nth n answers (Err (RequestRejected "offline")))
    (fun n => (1700000000000 + Z.of_nat n)%Z)
    (fun _ => "blob:preview").

Definition start : World Z := initialWorld.


(** As above, but the thumbnail answer carries no text. *)
Definition complete_env : Env Z :=
  scripted [ Ok (text_response (Some analysis_text));
             Ok (text_response (Some "{}"));
             Ok (text_response None) ].

(** The analysis answer is cut off in the middle. *)
Definition truncated_env : Env Z :=
  scripted [ Ok (text_response (Some ("{" ++ q "summary" ++ ":" ++ q "A cat")%string)) ].

(** No request is ever answered. *)
Definition offline_env : Env Z := scripted [].

(** The first image request is answered with an image, the second without. *)
Definition one_image_env : Env Z :=
  scripted [ Ok (image_response "QUJD"); Ok no_image_response ].

(** A world in which an analysis and an SEO package are held. *)
Definition packaged : World Z :=
  @Build_World Z
    (with_seo (VObj [("title", VStr "Why cats sleep all day")])
       (with_analysis (AnalysisResult_val analysis_record) initialState)) [].

(** The only answer carries no text. *)
Definition silent_env : Env Z := scripted [ Ok (text_response None) ].

(** The only answer is the empty object. *)
Definition seo_env : Env Z := scripted [ Ok (text_response (Some "{}")) ].

End Example.

(** * Further example inputs *)

Module MoreExamples.

(** A file the browser fails to read. *)
Definition unreadable_file : File :=
  {| file_type := "image/png"; file_dataURL := Err FileReadError |}.

(** An analysis with two controversies. *)
Definition risky_record : AnalysisResult :=
  {| summary := "A night at the casino"; category := "Vlog"; mood := "High-energy";
     sentiment := "Provocative";
     controversies :=
       [ {| topic := "Gambling"; explanation := "Shows betting" |};
         {| topic := "Alcohol"; explanation := "Shows drinking" |} ];
     keyScenes := ["roulette"; "bar"] |}.

(** A video file. *)
Definition mp4_file : File :=
  {| file_type := "video/mp4";
     file_dataURL := Ok "data:video/mp4;base64,AAAAIGZ0eXA=" |}.

(** A candidate whose second part is a JPEG image, after a text part. *)
Definition jpeg_candidate : Candidate :=
  {| content :=
       Some {| parts :=
                 Some [ {| part_text := Some "Here it is"; inlineData := None |};
                        {| part_text := None;
                           inlineData :=
                             Some {| data := Some "/9j/4AAQ";
                                     mimeType := Some "image/jpeg" |} |} ] |} |}.

(** A candidate whose only part is a PNG image. *)
Definition png_candidate : Candidate :=
  {| content :=
       Some {| parts :=
                 Some [ {| part_text := None;
                           inlineData :=
                             Some {| data := Some "QUJD";
                                     mimeType := Some "image/png" |} |} ] |} |}.

End MoreExamples.

(** * The executable run time meets the interface *)

Lemma concrete_parse_throws_SyntaxError :
  forall s e, Concrete.parse s = Err e -> e = SyntaxError.
Proof.
  intros s e. unfold Concrete.parse.
  destruct (Concrete.parse_json s); congruence.
Qed.

Lemma concrete_parse_defined :
  forall s, Concrete.parse s <> Ok VUndefined.
Proof.
  intros s. unfold Concrete.parse.
  destruct (Concrete.parse_json s) as [j|]; [destruct j|]; discriminate.
Qed.

Lemma Z_gt_zero_of_nat :
  forall n, (0 <? Z.of_nat n)%Z = (0 <? n)%nat.
Proof.
  intros [|n]; [reflexivity|].
  change (0 <? S n)%nat with true.
  apply Z.ltb_lt. lia.
Qed.

#[export] Instance concrete_runtime : Runtime Z := {|
  Number_toString := Concrete.toString;
  Number_of_nat := Z.of_nat;
  Number_gt_zero := fun z => (0 <? z)%Z;
  Number_truthy := fun z => negb (z =? 0)%Z;
  StringToNumber := Concrete.toNumber;
  JSON_parse := Concrete.parse;
  JSON_parse_empty_object := eq_refl;
  JSON_parse_empty_concepts := eq_refl;
  JSON_parse_throws_SyntaxError := concrete_parse_throws_SyntaxError;
  JSON_parse_defined := concrete_parse_defined;
  Number_gt_zero_of_nat := Z_gt_zero_of_nat
|}.

(** * Running the gateway and the handlers *)

(** Splits the events of a world into those of the handler that just ran
    and those it started from. *)
Lemma events_prefix_nil {A} (l : list A) : l = [] ++ l.
Proof. reflexivity. Qed.

Lemma events_prefix_cons {A} (x : A) (l new tl : list A) :
  l = new ++ tl -> x :: l = (x :: new) ++ tl.
Proof. intros ->. reflexivity. Qed.

Ltac events_prefix :=
  cbn [events app add_event];
  repeat apply events_prefix_cons; apply events_prefix_nil.

(** Runs the glue of a handler in hypothesis [H], up to the next gateway
    call. *)
Ltac run_step H :=
  cbv beta iota zeta delta [bind ret lift emit modify setMedia setAnalysis setSeo
    setThumbnailConcepts setGeneratedThumbnail try_catch_finally fileToBase64 throw
    Date_now setHistory console_error setLoadingStep getState setPlatform
    setActivePrompt setGenImgLoading setShowVault] in H;
  cbn [app events add_event sent rbind] in H.

(** Closes a branch of [processFlow]: the run is over in hypothesis [Hrun]. *)
Ltac run_done Hrun :=
  injection Hrun as <- <-;
  split; [reflexivity|]; split; [reflexivity|];
  eexists; split; [events_prefix|];
  cbn [gateway_log console_log commits Datatypes.app];
  split;
    [first [apply AnalysisFailed | apply SeoFailed | apply ThumbnailsFailed
           | apply StagesSucceeded]|].

Lemma prefix_split (p s : string) :
  String.prefix p s = true -> exists after, s = (p ++ after)%string.
Proof.
  revert s. induction p as [|c p IH]; intros s H.
  - exists s. reflexivity.
  - destruct s as [|d s]; cbn [String.prefix] in H; [discriminate|].
    destruct (Ascii.ascii_dec c d) as [<-|]; [|discriminate].
    destruct (IH s H) as [after ->]. exists after. reflexivity.
Qed.

Lemma infixb_sound (p s : string) : infixb p s = true -> Infix p s.
Proof.
  induction s as [|c s IH]; cbn [infixb]; intros H.
  - rewrite orb_false_r in H. destruct (prefix_split _ _ H) as [after ->].
    exists EmptyString, after. reflexivity.
  - apply orb_true_iff in H. destruct H as [H|H].
    + destruct (prefix_split _ _ H) as [after ->].
      exists EmptyString, after. reflexivity.
    + destruct (IH H) as (before & after & ->).
      exists (String c before), after. reflexivity.
Qed.

Lemma Infix_append_r (p x s : string) : Infix p s -> Infix p (x ++ s).
Proof.
  intros (before & after & ->). exists (x ++ before)%string, after.
  induction x as [|c x IH]; [reflexivity|]. cbn [append]. rewrite IH. reflexivity.
Qed.

Section Runs.
Context {number : Type} {R : Runtime number}.
Local Abbreviation val := (value number).
Local Abbreviation Event := (Event number).
Local Abbreviation Env := (Env number).
Local Abbreviation World := (World number).
Local Abbreviation HistoryItem := (HistoryItem number).
Local Abbreviation AppState := (AppState number).

Lemma rbind_Ok {A} (r : result A) : rbind r (fun a => Ok a) = r.
Proof. destruct r; reflexivity. Qed.

Lemma analyzeMedia_run env w base64 mime :
  analyzeMedia base64 mime env w =
  let r := analyzeMedia_result env (sent (events w)) base64 mime in
  (r, add_event (EvGateway (CallAnalyzeMedia base64 mime) r)
        (add_event (EvRequest (analyzeMediaRequest base64 mime)) w)).
Proof.
  unfold analyzeMedia, settle, bind, generateContent, lift, analyzeMedia_result.
  cbv zeta.
  destruct (backend env (sent (events w)) (analyzeMediaRequest base64 mime)) as [response|e];
    cbn [rbind]; rewrite ?rbind_Ok; reflexivity.
Qed.

Lemma generateSEO_run env w a p :
  generateSEO a p env w =
  let r := generateSEO_result env (sent (events w)) a p in
  (r, add_event (EvGateway (CallGenerateSEO a p) r)
        match seoPrompt a p with
        | Ok prompt => add_event (EvRequest (seoRequest prompt)) w
        | Err _ => w
        end).
Proof.
  unfold generateSEO, settle, bind, generateContent, lift, generateSEO_result.
  cbv zeta.
  destruct (seoPrompt a p) as [prompt|e]; cbn [rbind]; [|reflexivity].
  destruct (backend env (sent (events w)) (seoRequest prompt)) as [response|e];
    cbn [rbind]; rewrite ?rbind_Ok; reflexivity.
Qed.

Lemma generateThumbnailPrompts_run env w a :
  generateThumbnailPrompts a env w =
  let r := generateThumbnailPrompts_result env (sent (events w)) a in
  (r, add_event (EvGateway (CallGenerateThumbnailPrompts a) r)
        match thumbnailPrompt a with
        | Ok prompt => add_event (EvRequest (thumbnailRequest prompt)) w
        | Err _ => w
        end).
Proof.
  unfold generateThumbnailPrompts, settle, bind, generateContent, lift,
    generateThumbnailPrompts_result.
  cbv zeta.
  destruct (thumbnailPrompt a) as [prompt|e]; cbn [rbind]; [|reflexivity].
  destruct (backend env (sent (events w)) (thumbnailRequest prompt)) as [response|e];
    cbn [rbind]; rewrite ?rbind_Ok; reflexivity.
Qed.

Lemma Get_defined (v : val) (k k' : string) (x : val) :
  Get v k = Ok x -> exists y, Get v k' = Ok y.
Proof.
  destruct v; cbn [Get]; try discriminate; intros _; eauto.
  - destruct (k' =? "length")%string; eauto.
  - destruct (k' =? "length")%string; eauto.
  - destruct (lookup k' fields); eauto.
Qed.

Lemma seoPrompt_defined (a : val) (p : Platform) (prompt : string) :
  seoPrompt a p = Ok prompt -> forall k, exists y, Get a k = Ok y.
Proof.
  unfold seoPrompt, seoScenesContext. intros H k.
  destruct (Get a "keyScenes") as [ks|e] eqn:Hks; [|discriminate].
  eapply Get_defined; eassumption.
Qed.

Lemma generateSEO_result_prompt env n a p s :
  generateSEO_result env n a p = Ok s -> exists prompt, seoPrompt a p = Ok prompt.
Proof.
  unfold generateSEO_result. destruct (seoPrompt a p); [eauto|discriminate].
Qed.

Lemma generateThumbnailPrompts_result_prompt env n a t :
  generateThumbnailPrompts_result env n a = Ok t ->
  exists prompt, thumbnailPrompt a = Ok prompt.
Proof.
  unfold generateThumbnailPrompts_result.
  destruct (thumbnailPrompt a); [eauto|discriminate].
Qed.

Lemma processFlow_cases env w file p url r w' :
  file_dataURL file = Ok url ->
  processFlow file p env w = (r, w') ->
  let base64 := split_comma_1 url in
  let mime := file_type file in
  let n := sent (events w) in
  r = Ok tt /\
  loadingStep (app w') = idle /\
  exists new,
    events w' = new ++ events w /\
    StageCalls base64 mime p (gateway_log new) /\
    ((exists a s t concepts item,
        analyzeMedia_result env n base64 mime = Ok a /\
        generateSEO_result env (S n) a p = Ok s /\
        generateThumbnailPrompts_result env (S (S n)) a = Ok t /\
        Get t "concepts" = Ok concepts /\
        gateway_log new =
          [ (CallAnalyzeMedia base64 mime, Ok a); (CallGenerateSEO a p, Ok s);
            (CallGenerateThumbnailPrompts a, Ok t) ] /\
        commits new = [item] /\
        item_analysis item = a /\ item_seo item = s /\
        item_thumbnailConcepts item = concepts /\ item_platform item = p /\
        history (app w') = insert item (history (app w)) /\
        analysis (app w') = a /\ seo (app w') = s /\
        thumbnailConcepts (app w') = concepts /\
        console_log new = [])
     \/
     (exists e,
        commits new = [] /\ history (app w') = history (app w) /\
        console_log new = [e] /\
        ((analyzeMedia_result env n base64 mime = Err e /\
          gateway_log new = [ (CallAnalyzeMedia base64 mime, Err e) ])
         \/
         (exists a,
            analyzeMedia_result env n base64 mime = Ok a /\
            generateSEO_result env (S n) a p = Err e /\
            gateway_log new =
              [ (CallAnalyzeMedia base64 mime, Ok a); (CallGenerateSEO a p, Err e) ])
         \/
         (exists a s,
            analyzeMedia_result env n base64 mime = Ok a /\
            generateSEO_result env (S n) a p = Ok s /\
            generateThumbnailPrompts_result env (S (S n)) a = Err e /\
            gateway_log new =
              [ (CallAnalyzeMedia base64 mime, Ok a); (CallGenerateSEO a p, Ok s);
                (CallGenerateThumbnailPrompts a, Err e) ])
         \/
         (exists a s t,
            analyzeMedia_result env n base64 mime = Ok a /\
            generateSEO_result env (S n) a p = Ok s /\
            generateThumbnailPrompts_result env (S (S n)) a = Ok t /\
            Get t "concepts" = Err e /\
            gateway_log new =
              [ (CallAnalyzeMedia base64 mime, Ok a); (CallGenerateSEO a p, Ok s);
                (CallGenerateThumbnailPrompts a, Ok t) ])))).
Proof.
  intros Hfile Hrun base64 mime n.
  unfold processFlow in Hrun.
  run_step Hrun. rewrite Hfile in Hrun. run_step Hrun.
  rewrite analyzeMedia_run in Hrun. run_step Hrun.
  fold base64 mime n in Hrun.
  destruct (analyzeMedia_result env n base64 mime) as [a|e] eqn:Ha.
  2:{ run_done Hrun. right. exists e.
      repeat split; try reflexivity. left. split; reflexivity. }
  rewrite generateSEO_run in Hrun. run_step Hrun. fold n in Hrun.
  destruct (generateSEO_result env (S n) a p) as [s|e] eqn:Hs.
  2:{ destruct (seoPrompt a p); run_step Hrun; run_done Hrun; right; exists e;
        (repeat split; try reflexivity); right; left; exists a;
        repeat split; first [reflexivity | assumption]. }
  destruct (generateSEO_result_prompt _ _ _ _ _ Hs) as [seoText Hp].
  rewrite Hp in Hrun. run_step Hrun.
  rewrite generateThumbnailPrompts_run in Hrun. run_step Hrun. fold n in Hrun.
  destruct (generateThumbnailPrompts_result env (S (S n)) a) as [t|e] eqn:Ht.
  2:{ destruct (thumbnailPrompt a); run_step Hrun; run_done Hrun; right; exists e;
        (repeat split; try reflexivity); right; right; left; exists a, s;
        repeat split; first [reflexivity | assumption]. }
  destruct (generateThumbnailPrompts_result_prompt _ _ _ _ Ht) as [thumbText Hq].
  rewrite Hq in Hrun. run_step Hrun.
  destruct (Get t "concepts") as [concepts|e] eqn:Hc.
  2:{ run_done Hrun. right. exists e.
      (repeat split; try reflexivity). right. right. right. exists a, s, t.
      repeat split; first [reflexivity | assumption]. }
  destruct (seoPrompt_defined _ _ _ Hp "summary") as [sm Hsm].
  rewrite Hsm in Hrun. run_step Hrun.
  run_done Hrun. left.
  do 5 eexists. repeat split; first [reflexivity | eassumption].
Qed.


Lemma generateNanoBananaImage_run (env : Env) (w : World) prompt :
  generateNanoBananaImage prompt env w =
  let r := generateNanoBananaImage_result env (sent (events w)) prompt in
  (r, add_event
        (EvGateway (CallGenerateNanoBananaImage prompt)
           (rbind r (fun img => Ok (VStr img))))
        (add_event (EvRequest (imageRequest prompt)) w)).
Proof.
  unfold generateNanoBananaImage, settle, bind, generateContent, lift,
    generateNanoBananaImage_result.
  cbv zeta.
  destruct (backend env (sent (events w)) (imageRequest prompt)) as [response|e];
    cbn [rbind]; reflexivity.
Qed.

Lemma handlePlatformChange_cases (env : Env) (w : World) p r w' :
  handlePlatformChange p env w = (r, w') ->
  platform (app w') = p /\
  analysis (app w') = analysis (app w) /\
  thumbnailConcepts (app w') = thumbnailConcepts (app w) /\
  history (app w') = history (app w) /\
  generatedThumbnail (app w') = generatedThumbnail (app w) /\
  exists new,
    events w' = new ++ events w /\
    commits new = [] /\
    if isTruthy (analysis (app w)) then
      let outcome :=
        generateSEO_result env (sent (events w)) (analysis (app w)) p in
      gateway_log new = [ (CallGenerateSEO (analysis (app w)) p, outcome) ] /\
      match outcome with
      | Ok seoRes =>
          r = Ok tt /\ seo (app w') = seoRes /\ loadingStep (app w') = idle /\
          phase_log new = [optimizing; idle]
      | Err e =>
          r = Err e /\ seo (app w') = seo (app w) /\
          loadingStep (app w') = optimizing /\ phase_log new = [optimizing]
      end
    else
      new = [] /\ r = Ok tt /\ seo (app w') = seo (app w) /\
      loadingStep (app w') = loadingStep (app w).
Proof.
  intros Hrun. unfold handlePlatformChange in Hrun. run_step Hrun.
  destruct (isTruthy (analysis (app w))) eqn:Htruthy.
  - run_step Hrun. rewrite generateSEO_run in Hrun. run_step Hrun.
    destruct (generateSEO_result env (sent (events w)) (analysis (app w)) p)
      as [seoRes|e] eqn:Hseo;
      destruct (seoPrompt (analysis (app w)) p); run_step Hrun;
      injection Hrun as <- <-;
      (repeat (split; [reflexivity|]));
      eexists; (split; [events_prefix|]);
      repeat split; reflexivity.
  - run_step Hrun. injection Hrun as <- <-.
    (repeat (split; [reflexivity|])).
    exists []. repeat split; reflexivity.
Qed.

Lemma handleForgeThumbnail_cases (env : Env) (w : World) prompt r w' :
  handleForgeThumbnail prompt env w = (r, w') ->
  r = Ok tt /\
  genImgLoading (app w') = false /\
  activePrompt (app w') = Some prompt /\
  history (app w') = history (app w) /\
  loadingStep (app w') = loadingStep (app w) /\
  analysis (app w') = analysis (app w) /\
  seo (app w') = seo (app w) /\
  thumbnailConcepts (app w') = thumbnailConcepts (app w) /\
  exists new,
    events w' = new ++ events w /\
    commits new = [] /\
    request_log new = [imageRequest prompt] /\
    let outcome := generateNanoBananaImage_result env (sent (events w)) prompt in
    gateway_log new =
      [ (CallGenerateNanoBananaImage prompt,
         rbind outcome (fun img => Ok (VStr img))) ] /\
    match outcome with
    | Ok img => generatedThumbnail (app w') = Some img /\ console_log new = []
    | Err e =>
        generatedThumbnail (app w') = generatedThumbnail (app w) /\
        console_log new = [e]
    end.
Proof.
  intros Hrun. unfold handleForgeThumbnail in Hrun. run_step Hrun.
  rewrite generateNanoBananaImage_run in Hrun. run_step Hrun.
  destruct (generateNanoBananaImage_result env (sent (events w)) prompt)
    as [img|e] eqn:Himg; run_step Hrun; injection Hrun as <- <-;
    (repeat (split; [reflexivity|]));
    eexists; (split; [events_prefix|]);
    repeat split; reflexivity.
Qed.

Lemma commits_app (new old : list Event) :
  commits (new ++ old) = commits new ++ commits old.
Proof.
  induction new as [|ev new IH]; [reflexivity|].
  destruct ev; cbn [commits Datatypes.app]; rewrite IH; reflexivity.
Qed.

Lemma insert_cons (item : HistoryItem) (prev : list HistoryItem) :
  insert item prev = item :: firstn 19 prev.
Proof. reflexivity. Qed.

Lemma insert_length (item : HistoryItem) (prev : list HistoryItem) :
  List.length (insert item prev) <= 20.
Proof. unfold insert. apply firstn_le_length. Qed.

Lemma insert_full (item : HistoryItem) (prev : list HistoryItem) :
  List.length prev = 20 -> insert item prev = item :: removelast prev.
Proof.
  intros Hlen. rewrite insert_cons. f_equal.
  rewrite removelast_firstn_len, Hlen. reflexivity.
Qed.

Lemma insert_firstn (item : HistoryItem) (log : list HistoryItem) :
  insert item (firstn 20 log) = firstn 20 (item :: log).
Proof.
  unfold insert. rewrite !firstn_cons. f_equal.
  rewrite firstn_firstn. reflexivity.
Qed.

Lemma processFlow_unreadable (env : Env) (w : World) file p e :
  file_dataURL file = Err e -> processFlow file p env w = (Err e, w).
Proof.
  intros Hfile. unfold processFlow.
  cbv beta iota zeta delta [bind fileToBase64 throw]. rewrite Hfile.
  destruct w; reflexivity.
Qed.

Lemma processFlow_invariant (env : Env) (w : World) file p :
  history_invariant w -> history_invariant (snd (processFlow file p env w)).
Proof.
  intros Hinv.
  destruct (file_dataURL file) as [url|e] eqn:Hfile.
  2:{ rewrite (processFlow_unreadable env w file p e Hfile). exact Hinv. }
  destruct (processFlow file p env w) as [r w'] eqn:Hrun. cbn [snd].
  destruct (processFlow_cases env w file p url r w' Hfile Hrun)
    as (_ & _ & new & Hev & _ & Hcases).
  unfold history_invariant in *. rewrite Hev, commits_app.
  destruct Hcases as
    [(a & s & t & concepts & item & _ & _ & _ & _ & _ & Hcom & _ & _ & _ & _ & Hhist & _)
    |(e & Hcom & Hhist & _)]; rewrite Hcom, Hhist, Hinv.
  - apply insert_firstn.
  - reflexivity.
Qed.

Lemma handle_invariant (env : Env) (w : World) (c : Command number) :
  history_invariant w -> history_invariant (snd (handle c env w)).
Proof.
  intros Hinv. destruct c as [file|p|prompt|item|b]; cbn [handle].
  - unfold submitMedia. cbv beta iota zeta delta [bind getState].
    destruct (processFlow file (platform (app w)) env w) as [r w'] eqn:Hrun.
    pose proof (processFlow_invariant env w file (platform (app w)) Hinv) as H.
    rewrite Hrun in H. destruct r; exact H.
  - destruct (handlePlatformChange p env w) as [r w'] eqn:Hrun. cbn [snd].
    destruct (handlePlatformChange_cases env w p r w' Hrun)
      as (_ & _ & _ & Hhist & _ & new & Hev & Hcom & _).
    unfold history_invariant in *.
    rewrite Hev, commits_app, Hcom, Hhist. exact Hinv.
  - destruct (handleForgeThumbnail prompt env w) as [r w'] eqn:Hrun. cbn [snd].
    destruct (handleForgeThumbnail_cases env w prompt r w' Hrun)
      as (_ & _ & _ & Hhist & _ & _ & _ & _ & new & Hev & Hcom & _).
    unfold history_invariant in *.
    rewrite Hev, commits_app, Hcom, Hhist. exact Hinv.
  - exact Hinv.
  - exact Hinv.
Qed.

Lemma reachable_invariant (env : Env) (w : World) :
  reachable env w -> history_invariant w.
Proof.
  induction 1 as [|w c _ IH _|w _ IH].
  - reflexivity.
  - apply handle_invariant. exact IH.
  - exact IH.
Qed.



Lemma text_or_missing (t : option string) (fallback : string) :
  t = None \/ t = Some "" -> text_or t fallback = fallback.
Proof. intros [-> | ->]; reflexivity. Qed.

Lemma text_or_present (s fallback : string) :
  s <> "" -> text_or (Some s) fallback = s.
Proof.
  intros Hne. unfold text_or.
  destruct (String.eqb_spec s "") as [->|_]; [contradiction Hne|]; reflexivity.
Qed.

Lemma mapM_elementToString_strings (l : list string) :
  mapM elementToString (map (fun s => VStr s : val) l) = Ok l.
Proof.
  induction l as [|s l IH]; [reflexivity|].
  cbn [map mapM elementToString ToString rbind] in *. rewrite IH. reflexivity.
Qed.

Lemma thumbnailPromptText_styles (summary scenes style : string) :
  In style THUMBNAIL_STYLES ->
  Infix ("'" ++ style ++ "'") (thumbnailPromptText summary scenes).
Proof.
  intros Hin. unfold thumbnailPromptText.
  do 8 apply Infix_append_r.
  unfold THUMBNAIL_STYLES in Hin. cbn [In] in Hin.
  repeat (destruct Hin as [<-|Hin]; [apply infixb_sound; vm_compute; reflexivity|]).
  contradiction.
Qed.

End Runs.

(** * The properties of the specification *)

Section Properties.
Context {number : Type} {R : Runtime number}.
Local Abbreviation val := (value number).
Local Abbreviation Event := (Event number).
Local Abbreviation Env := (Env number).
Local Abbreviation World := (World number).
Local Abbreviation HistoryItem := (HistoryItem number).


(** C2.  In every reachable world the history is the twenty newest
    committed records, the newest first, so its length is at most 20;
    [insert] puts the new record in front of the first 19 of the previous
    ones, and on a history of 20 records it drops exactly the last (oldest)
    one and keeps the other 19 in order. *)
Theorem history_bounded_newest_first :
  (forall (env : Env) (w : World),
     reachable env w ->
     history (app w) = firstn 20 (commits (events w)) /\
     List.length (history (app w)) <= 20) /\
  (forall (item : HistoryItem) (prev : list HistoryItem),
     insert item prev = item :: firstn 19 prev /\
     List.length (insert item prev) <= 20) /\
  (forall (item : HistoryItem) (prev : list HistoryItem),
     List.length prev = 20 ->
     insert item prev = item :: removelast prev).
Proof.
  split; [|split].
  - intros env w Hreach. pose proof (reachable_invariant env w Hreach) as Hinv.
    split; [exact Hinv|]. rewrite Hinv. apply firstn_le_length.
  - intros item prev. split; [apply insert_cons | apply insert_length].
  - apply insert_full.
Qed.

(** C3 (amended).  A platform change issued while an analysis is held makes
    exactly one gateway call, [generateSEO] on the held analysis and the new
    platform; the SEO package is replaced by the call's result when the call
    succeeds and is unchanged when it fails; the analysis, the thumbnail
    concepts and the history (contents and length) are unchanged, and
    nothing is committed. *)
Theorem handlePlatformChange_regenerates_seo_only :
  forall (env : Env) (w : World) (p : Platform) (r : result unit) (w' : World),
    isTruthy (analysis (app w)) = true ->
    handlePlatformChange p env w = (r, w') ->
    exists new outcome,
      events w' = new ++ events w /\
      gateway_log new = [ (CallGenerateSEO (analysis (app w)) p, outcome) ] /\
      outcome = generateSEO_result env (sent (events w)) (analysis (app w)) p /\
      match outcome with
      | Ok seoRes => seo (app w') = seoRes
      | Err _ => seo (app w') = seo (app w)
      end /\
      analysis (app w') = analysis (app w) /\
      thumbnailConcepts (app w') = thumbnailConcepts (app w) /\
      history (app w') = history (app w) /\
      List.length (history (app w')) = List.length (history (app w)) /\
      commits new = [].
Proof.
  intros env w p r w' Htruthy Hrun.
  destruct (handlePlatformChange_cases env w p r w' Hrun)
    as (_ & Han & Hth & Hhist & _ & new & Hev & Hcom & Hcase).
  rewrite Htruthy in Hcase. cbv zeta in Hcase. destruct Hcase as [Hlog Hout].
  exists new, (generateSEO_result env (sent (events w)) (analysis (app w)) p).
  repeat split; try assumption.
  - destruct (generateSEO_result env (sent (events w)) (analysis (app w)) p);
      [destruct Hout as (_ & H & _) | destruct Hout as (_ & H & _)]; exact H.
  - rewrite Hhist. reflexivity.
Qed.

(** C4 (amended).  The load effect leaves the history as it is, empty, when
    no blob is stored or the stored blob is the empty string; for any other
    blob it sets the history to what the blob parses to, and when the blob
    fails to parse the [SyntaxError] of [JSON.parse] leaves the effect. *)
Theorem loadHistory_keeps_or_throws :
  loadHistory None = Ok KeepHistory /\
  loadHistory (Some "") = Ok KeepHistory /\
  forall saved : string,
    saved <> "" ->
    match JSON_parse saved with
    | Ok parsed => loadHistory (Some saved) = Ok (SetHistoryTo parsed)
    | Err e => e = SyntaxError /\ loadHistory (Some saved) = Err SyntaxError
    end.
Proof.
  split; [reflexivity|]. split; [reflexivity|].
  intros saved Hne. unfold loadHistory.
  destruct (String.eqb_spec saved "") as [->|_]; [contradiction Hne; reflexivity|].
  destruct (JSON_parse saved) as [parsed|e] eqn:Hparse; cbn [rbind]; [reflexivity|].
  apply JSON_parse_throws_SyntaxError in Hparse. subst e. split; reflexivity.
Qed.

(** C5 (amended).  The request text of [generateThumbnailPrompts] asks for 10
    prompts and names each of the ten fixed styles; the function sends that
    one request and returns what the response text parses to ([{concepts:
    []}] for a missing or empty text), whatever the number and the styles of
    the concepts in it. *)
Theorem generateThumbnailPrompts_requests_ten_styles :
  forall (env : Env) (w : World) (a : val),
    match thumbnailPrompt a with
    | Err e => fst (generateThumbnailPrompts a env w) = Err e
    | Ok prompt =>
        String.prefix "Generate 10 " prompt = true /\
        (forall style,
           In style THUMBNAIL_STYLES -> Infix ("'" ++ style ++ "'") prompt) /\
        request_log (events (snd (generateThumbnailPrompts a env w))) =
          request_log (events w) ++ [thumbnailRequest prompt] /\
        fst (generateThumbnailPrompts a env w) =
          match backend env (sent (events w)) (thumbnailRequest prompt) with
          | Ok response => JSON_parse (text_or (text response) empty_concepts_text)
          | Err e => Err e
          end
    end.
Proof.
  intros env w a. rewrite generateThumbnailPrompts_run. cbv zeta. cbn [fst snd].
  unfold generateThumbnailPrompts_result.
  destruct (thumbnailPrompt a) as [prompt|e] eqn:Hprompt; cbn [rbind]; [|reflexivity].
  assert (Htext : exists summary scenes, prompt = thumbnailPromptText summary scenes).
  { unfold thumbnailPrompt in Hprompt.
    destruct (Get a "keyScenes"); cbn [rbind] in Hprompt; [|discriminate].
    destruct (Array_join a0 ", "); cbn [rbind] in Hprompt; [|discriminate].
    destruct (interpolate a "summary"); cbn [rbind] in Hprompt; [|discriminate].
    injection Hprompt as <-. eauto. }
  destruct Htext as (summary & scenes & ->).
  split; [reflexivity|]. split; [intros style; apply thumbnailPromptText_styles|].
  split; [reflexivity|].
  destruct (backend env (sent (events w)) _); reflexivity.
Qed.

(** C6.  When the backend answers [analyzeMedia] with a missing or empty
    text, the call returns the empty object; when the text fails to parse,
    the parse error is the call's error, and the pipeline run treats it as a
    stage failure: the error is logged, no later stage is called, the phase
    returns to idle and the history is unchanged. *)
Theorem analyzeMedia_empty_text_and_parse_failure :
  forall (env : Env) (w : World) (base64 : val) (mime : string)
         (response : GenerateContentResponse),
    backend env (sent (events w)) (analyzeMediaRequest base64 mime) = Ok response ->
    (text response = None \/ text response = Some "" ->
     fst (analyzeMedia base64 mime env w) = Ok (VObj [])) /\
    (forall s e,
       text response = Some s -> s <> "" -> JSON_parse s = Err e ->
       fst (analyzeMedia base64 mime env w) = Err e /\
       forall file p url r w',
         file_dataURL file = Ok url ->
         split_comma_1 url = base64 ->
         file_type file = mime ->
         processFlow file p env w = (r, w') ->
         r = Ok tt /\
         loadingStep (app w') = idle /\
         history (app w') = history (app w) /\
         exists new,
           events w' = new ++ events w /\
           gateway_log new = [ (CallAnalyzeMedia base64 mime, Err e) ] /\
           console_log new = [e] /\
           commits new = []).
Proof.
  intros env w base64 mime response Hresp.
  rewrite analyzeMedia_run. cbv zeta. cbn [fst].
  unfold analyzeMedia_result at 1 2. rewrite Hresp. cbn [rbind]. split.
  - intros Hmissing. rewrite (text_or_missing _ _ Hmissing).
    apply JSON_parse_empty_object.
  - intros s e Htext Hne Hparse. rewrite Htext, (text_or_present _ _ Hne).
    split; [exact Hparse|].
    intros file p url r w' Hfile <- <- Hrun.
    assert (Hres : analyzeMedia_result env (sent (events w)) (split_comma_1 url)
                     (file_type file) = Err e).
    { unfold analyzeMedia_result. rewrite Hresp. cbn [rbind].
      rewrite Htext, (text_or_present _ _ Hne). exact Hparse. }
    destruct (processFlow_cases env w file p url r w' Hfile Hrun)
      as (Hr & Hidle & new & Hev & _ & Hcases).
    cbv zeta in Hcases. rewrite Hres in Hcases.
    destruct Hcases as
      [(a & _ & _ & _ & _ & Habs & _) | (e' & Hcom & Hhist & Hcons & Hfail)];
      [discriminate Habs|].
    destruct Hfail as [(He' & Hlog) | [(a & Habs & _) | [(a & s' & Habs & _)
      | (a & s' & t & Habs & _)]]]; try discriminate Habs.
    injection He' as <-.
    repeat split; try assumption. exists new. repeat split; assumption.
Qed.


(** C8.  When the controversies of an analysis are the empty list, the
    controversy context of [generateSEO] is the empty string, and the
    request text is the template with the empty string in that place. *)
Theorem generateSEO_without_controversies :
  (forall v : val,
     Get v "controversies" = Ok (VArr []) ->
     seoControversyContext v = Ok "") /\
  (forall (a : AnalysisResult) (p : Platform),
     controversies a = [] ->
     let prompt :=
       seoPromptText (summary a) (category a) (mood a) (sentiment a)
         (join_strings "; " (keyScenes a)) ""
         (Platform_name p) (platformStrategies p) in
     seoControversyContext (AnalysisResult_val a) = Ok "" /\
     seoPrompt (AnalysisResult_val a) p = Ok prompt /\
     forall (env : Env) (w : World),
       request_log (events (snd (generateSEO (AnalysisResult_val a) p env w))) =
       request_log (events w) ++ [seoRequest prompt]).
Proof.
  assert (Hgeneral : forall v : val,
            Get v "controversies" = Ok (VArr []) ->
            seoControversyContext v = Ok "").
  { intros v Hget. unfold seoControversyContext. rewrite Hget.
    cbn [rbind Get String.eqb Ascii.eqb Bool.eqb List.length gt_zero].
    rewrite Number_gt_zero_of_nat. reflexivity. }
  split; [exact Hgeneral|].
  intros a p Hnone prompt.
  assert (Hctx : seoControversyContext (AnalysisResult_val a) = Ok "").
  { apply Hgeneral. unfold AnalysisResult_val. rewrite Hnone. reflexivity. }
  assert (Hprompt : seoPrompt (AnalysisResult_val a) p = Ok prompt).
  { unfold seoPrompt. rewrite Hctx. unfold seoScenesContext, interpolate.
    unfold AnalysisResult_val.
    cbn [Get lookup String.eqb Ascii.eqb Bool.eqb rbind Array_join ToString].
    rewrite mapM_elementToString_strings. reflexivity. }
  split; [exact Hctx|]. split; [exact Hprompt|].
  intros env w. rewrite generateSEO_run. cbv zeta. cbn [snd].
  rewrite Hprompt. reflexivity.
Qed.



End Properties.

(** * The properties on concrete runs *)

Import Example.

(** The events of a run from the initial world are all its own. *)
Lemma events_from_start (l : list (Event Z)) : l = l ++ events start.
Proof. cbn [start initialWorld events]. rewrite app_nil_r. reflexivity. Qed.



(** C3, as stated, fails: when the backend rejects the request, the one
    [generateSEO] call fails and the SEO package held before stays. *)
Lemma platform_change_offline_keeps_seo :
  let w' := snd (handlePlatformChange Twitter offline_env packaged) in
  gateway_log (events w') =
    [ (CallGenerateSEO (analysis (app packaged)) Twitter,
       Err (RequestRejected "offline")) ] /\
  seo (app w') = seo (app packaged) /\
  ~ platform_change_replaces_seo offline_env packaged Twitter.
Proof.
  cbv zeta.
  assert (Hlog : gateway_log
            (events (snd (handlePlatformChange Twitter offline_env packaged))) =
            [ (CallGenerateSEO (analysis (app packaged)) Twitter,
               Err (RequestRejected "offline")) ]).
  { vm_compute. reflexivity. }
  split; [exact Hlog|]. split; [vm_compute; reflexivity|].
  intros Hclaim.
  assert (Hev : forall l : list (Event Z), l = l ++ events packaged).
  { intros l. cbn [packaged events]. rewrite app_nil_r. reflexivity. }
  destruct (Hclaim _ (Hev _)) as (seoRes & Hok & _).
  rewrite Hlog in Hok. discriminate Hok.
Qed.

(** C3 on a platform change that succeeds. *)
Lemma handlePlatformChange_regenerates_seo_only_witness :
  let run := handlePlatformChange Twitter seo_env packaged in
  isTruthy (analysis (app packaged)) = true /\
  handlePlatformChange Twitter seo_env packaged = (fst run, snd run) /\
  analysis (app (snd run)) = analysis (app packaged) /\
  thumbnailConcepts (app (snd run)) = thumbnailConcepts (app packaged) /\
  history (app (snd run)) = history (app packaged).
Proof.
  cbv zeta.
  destruct (handlePlatformChange_regenerates_seo_only seo_env packaged Twitter _ _
              eq_refl (surjective_pairing _))
    as (new & outcome & _ & _ & _ & _ & Han & Hth & Hhist & _).
  split; [reflexivity|]. split; [apply surjective_pairing|].
  split; [exact Han|]. split; [exact Hth | exact Hhist].
Defined.

(** C4, as stated, fails: the blob [{] does not parse, and the load effect
    throws instead of yielding an empty history. *)
Lemma loadHistory_unparseable_throws :
  JSON_parse "{" = Err SyntaxError /\
  loadHistory (number := Z) (Some "{") = Err SyntaxError /\
  ~ unparseable_blob_loads_empty (number := Z) "{".
Proof.
  split; [vm_compute; reflexivity|]. split; [vm_compute; reflexivity|].
  intros Hclaim.
  destruct Hclaim as [H|H].
  - exists SyntaxError. vm_compute. reflexivity.
  - vm_compute in H. discriminate H.
  - vm_compute in H. discriminate H.
Qed.

(** C5, as stated, fails: for a response without text the function returns
    a batch of no concepts. *)
Lemma generateThumbnailPrompts_empty_batch :
  fst (generateThumbnailPrompts (AnalysisResult_val analysis_record) silent_env start)
    = Ok (VObj [("concepts", VArr [])]) /\
  ~ thumbnails_always_ten silent_env start (AnalysisResult_val analysis_record).
Proof.
  assert (Hres : fst (generateThumbnailPrompts (AnalysisResult_val analysis_record)
                        silent_env start) = Ok (VObj [("concepts", VArr [])])).
  { vm_compute. reflexivity. }
  split; [exact Hres|].
  intros Hclaim. destruct (Hclaim _ Hres) as (concepts & Hget & Hlen & _).
  cbn in Hget. injection Hget as <-. discriminate Hlen.
Qed.

(** C6 on a response text that is cut off. *)
Lemma analyzeMedia_empty_text_and_parse_failure_witness :
  let truncated := ("{" ++ q "summary" ++ ":" ++ q "A cat")%string in
  backend truncated_env (sent (events start))
    (analyzeMediaRequest (VStr "iVBORw0KGgo=") "image/png")
    = Ok (text_response (Some truncated)) /\
  JSON_parse truncated = Err SyntaxError /\
  fst (analyzeMedia (VStr "iVBORw0KGgo=") "image/png" truncated_env start)
    = Err SyntaxError.
Proof.
  cbv zeta.
  assert (Hparse : JSON_parse ("{" ++ q "summary" ++ ":" ++ q "A cat")%string
                   = Err SyntaxError).
  { vm_compute. reflexivity. }
  split; [reflexivity|]. split; [exact Hparse|].
  refine (proj1 (proj2 (analyzeMedia_empty_text_and_parse_failure truncated_env start
                          (VStr "iVBORw0KGgo=") "image/png" _ eq_refl)
                   _ SyntaxError eq_refl _ Hparse)).
  discriminate.
Defined.



(** C8 on an analysis without controversies. *)
Lemma generateSEO_without_controversies_witness :
  controversies analysis_record = [] /\
  seoControversyContext (number := Z) (AnalysisResult_val analysis_record) = Ok "".
Proof.
  split; [reflexivity|].
  exact (proj1 (proj2 (generateSEO_without_controversies (number := Z))
                  analysis_record YouTube eq_refl)).
Defined.



(** * Further properties of the handlers and the gateway *)

Section Further.
Context {number : Type} {R : Runtime number}.
Local Abbreviation val := (value number).
Local Abbreviation Event := (Event number).
Local Abbreviation Env := (Env number).
Local Abbreviation World := (World number).
Local Abbreviation HistoryItem := (HistoryItem number).
Local Abbreviation AppState := (AppState number).
Local Abbreviation Request := (Request number).

Lemma processFlow_fields (env : Env) (w : World) file p url r w' :
  file_dataURL file = Ok url ->
  processFlow file p env w = (r, w') ->
  let base64 := split_comma_1 url in
  let mime := file_type file in
  let n := sent (events w) in
  media (app w') =
    {| media_file := Some file; media_preview := Some (createObjectURL env file);
       media_type := Some (kindOf file); media_base64 := base64 |} /\
  generatedThumbnail (app w') = None /\
  activePrompt (app w') = activePrompt (app w) /\
  platform (app w') = platform (app w) /\
  genImgLoading (app w') = genImgLoading (app w) /\
  showVault (app w') = showVault (app w) /\
  exists new,
    events w' = new ++ events w /\
    match analyzeMedia_result env n base64 mime with
    | Err e =>
        analysis (app w') = VNull /\ seo (app w') = VNull /\
        thumbnailConcepts (app w') = VArr [] /\
        phase_log new = [analyzing; idle] /\
        request_log new = [analyzeMediaRequest base64 mime] /\
        commits new = []
    | Ok a =>
        analysis (app w') = a /\
        match generateSEO_result env (S n) a p with
        | Err e =>
            seo (app w') = VNull /\ thumbnailConcepts (app w') = VArr [] /\
            phase_log new = [analyzing; optimizing; idle] /\
            request_log new =
              analyzeMediaRequest base64 mime :: requestOf (seoPrompt a p) seoRequest /\
            commits new = []
        | Ok s =>
            seo (app w') = s /\
            exists seoText, seoPrompt a p = Ok seoText /\
            match generateThumbnailPrompts_result env (S (S n)) a with
            | Err e =>
                thumbnailConcepts (app w') = VArr [] /\
                phase_log new = [analyzing; optimizing; visualizing; idle] /\
                request_log new =
                  analyzeMediaRequest base64 mime :: seoRequest seoText
                  :: requestOf (thumbnailPrompt a) thumbnailRequest /\
                commits new = []
            | Ok t =>
                exists thumbText, thumbnailPrompt a = Ok thumbText /\
                phase_log new = [analyzing; optimizing; visualizing; idle] /\
                request_log new =
                  [ analyzeMediaRequest base64 mime; seoRequest seoText;
                    thumbnailRequest thumbText ] /\
                match Get t "concepts" with
                | Err e => thumbnailConcepts (app w') = VArr [] /\ commits new = []
                | Ok concepts =>
                    thumbnailConcepts (app w') = concepts /\
                    exists summary,
                      Get a "summary" = Ok summary /\
                      commits new = [recordOf env w file p a s summary concepts]
                end
            end
        end
    end.
Proof.
  intros Hfile Hrun base64 mime n.
  unfold processFlow in Hrun.
  run_step Hrun. rewrite Hfile in Hrun. run_step Hrun.
  rewrite analyzeMedia_run in Hrun. run_step Hrun.
  fold base64 mime n in Hrun. fold (kindOf file) in Hrun.
  destruct (analyzeMedia_result env n base64 mime) as [a|e] eqn:Ha.
  2:{ injection Hrun as <- <-. repeat (split; [reflexivity|]).
      eexists. split; [events_prefix|]. repeat split; reflexivity. }
  rewrite generateSEO_run in Hrun. run_step Hrun. fold n in Hrun.
  destruct (generateSEO_result env (S n) a p) as [s|e] eqn:Hs.
  2:{ destruct (seoPrompt a p); run_step Hrun; injection Hrun as <- <-;
        (repeat (split; [reflexivity|]));
        eexists; (split; [events_prefix|]); repeat split; reflexivity. }
  destruct (generateSEO_result_prompt _ _ _ _ _ Hs) as [seoText Hp].
  rewrite Hp in Hrun. run_step Hrun.
  rewrite generateThumbnailPrompts_run in Hrun. run_step Hrun. fold n in Hrun.
  destruct (generateThumbnailPrompts_result env (S (S n)) a) as [t|e] eqn:Ht.
  2:{ destruct (thumbnailPrompt a); run_step Hrun; injection Hrun as <- <-;
        (repeat (split; [reflexivity|]));
        eexists; (split; [events_prefix|]); (split; [reflexivity|]);
        (split; [reflexivity|]); exists seoText; repeat split; first [reflexivity | assumption]. }
  destruct (generateThumbnailPrompts_result_prompt _ _ _ _ Ht) as [thumbText Hq].
  rewrite Hq in Hrun. run_step Hrun.
  destruct (Get t "concepts") as [concepts|e] eqn:Hc.
  2:{ injection Hrun as <- <-. repeat (split; [reflexivity|]).
      eexists. split; [events_prefix|]. split; [reflexivity|].
      split; [reflexivity|]. exists seoText. split; [assumption|].
      exists thumbText. repeat split; first [reflexivity | assumption]. }
  destruct (seoPrompt_defined _ _ _ Hp "summary") as [sm Hsm].
  rewrite Hsm in Hrun. run_step Hrun. cbn [clock_reads] in Hrun.
  injection Hrun as <- <-. repeat (split; [reflexivity|]).
  eexists. split; [events_prefix|]. split; [reflexivity|].
  split; [reflexivity|]. exists seoText. split; [assumption|].
  exists thumbText. split; [assumption|]. split; [reflexivity|].
  split; [reflexivity|]. split; [reflexivity|].
  exists sm. split; [assumption | reflexivity].
Qed.

(** Induction on a value whose array elements satisfy the property. *)
Lemma value_array_ind (P : val -> Prop)
    (Hundefined : P VUndefined) (Hnull : P VNull)
    (Hbool : forall b, P (VBool b)) (Hnum : forall n, P (VNum n))
    (Hstr : forall s, P (VStr s))
    (Harr : forall l, Forall P l -> P (VArr l))
    (Hobj : forall fields, P (VObj fields)) : forall v, P v.
Proof.
  exact (fix go (v : val) : P v :=
    match v with
    | VUndefined => Hundefined
    | VNull => Hnull
    | VBool b => Hbool b
    | VNum n => Hnum n
    | VStr s => Hstr s
    | VArr l =>
        Harr l
          ((fix all (l : list val) : Forall P l :=
              match l with
              | [] => Forall_nil P
              | x :: rest => Forall_cons x (go x) (all rest)
              end) l)
    | VObj fields => Hobj fields
    end).
Qed.

Lemma mapM_error {A B} (f : A -> result B) (l : list A) (e : JSError) :
  mapM f l = Err e -> exists x, In x l /\ f x = Err e.
Proof.
  induction l as [|x l IH]; cbn [mapM rbind]; [discriminate|].
  destruct (f x) as [y|e'] eqn:Hfx; cbn [rbind].
  - destruct (mapM f l) as [ys|e''] eqn:Hl; cbn [rbind]; [discriminate|].
    intros [= ->]. destruct (IH eq_refl) as (x' & Hin & Hx').
    exists x'. split; [right; exact Hin | exact Hx'].
  - intros [= ->]. exists x. split; [left; reflexivity | exact Hfx].
Qed.

Lemma elementToString_ToString (x : val) (e : JSError) :
  elementToString x = Err e -> ToString x = Err e.
Proof. destruct x; cbn [elementToString]; try discriminate; auto. Qed.

Lemma ToString_error (v : val) (e : JSError) :
  ToString v = Err e -> e = TypeError.
Proof.
  revert e. induction v as [| |b|n|s|l IH|fields] using value_array_ind;
    intros e; cbn [ToString]; try discriminate.
  - destruct b; discriminate.
  - change (mapM _ l) with (mapM elementToString l).
    destruct (mapM elementToString l) as [strs|e'] eqn:Hl; cbn [rbind];
      [discriminate|].
    intros [= ->]. destruct (mapM_error _ _ _ Hl) as (x & Hin & Hx).
    rewrite Forall_forall in IH.
    exact (IH x Hin e (elementToString_ToString x e Hx)).
  - destruct (has_own "toString" fields); [intros [= <-]; reflexivity|discriminate].
Qed.

Lemma Get_TypeError (v : val) (k : string) (e : JSError) :
  Get v k = Err e -> e = TypeError.
Proof.
  destruct v; cbn [Get]; try discriminate; try (intros [= <-]; reflexivity).
  - destruct (k =? "length")%string; discriminate.
  - destruct (k =? "length")%string; discriminate.
  - destruct (lookup k fields); discriminate.
Qed.

Lemma Array_join_error (v : val) (sep : string) (e : JSError) :
  Array_join v sep = Err e -> e = TypeError.
Proof.
  destruct v; cbn [Array_join]; try (intros [= <-]; reflexivity).
  destruct (mapM elementToString elements) as [strs|e'] eqn:Hl; cbn [rbind];
    [discriminate|].
  intros [= ->]. destruct (mapM_error _ _ _ Hl) as (x & _ & Hx).
  exact (ToString_error x e (elementToString_ToString x e Hx)).
Qed.

(** Whether an array joins does not depend on the separator. *)
Lemma Array_join_separator (v : val) (sep sep' : string) (s : string) :
  Array_join v sep = Ok s -> exists s', Array_join v sep' = Ok s'.
Proof.
  destruct v; cbn [Array_join]; try discriminate.
  destruct (mapM elementToString elements); cbn [rbind]; [eauto|discriminate].
Qed.

Lemma interpolate_error (v : val) (k : string) (e : JSError) :
  interpolate v k = Err e -> e = TypeError.
Proof.
  unfold interpolate. destruct (Get v k) as [x|e'] eqn:Hget; cbn [rbind].
  - apply ToString_error.
  - intros [= ->]. exact (Get_TypeError _ _ _ Hget).
Qed.

Lemma gt_zero_error (v : val) (e : JSError) :
  gt_zero v = Err e -> e = TypeError.
Proof.
  destruct v; cbn [gt_zero]; try discriminate.
  - destruct (ToString (VArr elements)) eqn:H; cbn [rbind]; [discriminate|].
    intros [= ->]. exact (ToString_error _ _ H).
  - destruct (ToString (VObj fields)) eqn:H; cbn [rbind]; [discriminate|].
    intros [= ->]. exact (ToString_error _ _ H).
Qed.

Lemma Array_map_error (f : val -> result val) (v : val) (e : JSError) :
  (forall x e', f x = Err e' -> e' = TypeError) ->
  Array_map f v = Err e -> e = TypeError.
Proof.
  intros Hf. destruct v; cbn [Array_map]; try (intros [= <-]; reflexivity).
  destruct (mapM f elements) as [ys|e'] eqn:Hl; cbn [rbind]; [discriminate|].
  intros [= ->]. destruct (mapM_error _ _ _ Hl) as (x & _ & Hx). eauto.
Qed.

Lemma seoControversyContext_error (a : val) (e : JSError) :
  seoControversyContext a = Err e -> e = TypeError.
Proof.
  unfold seoControversyContext.
  destruct (Get a "controversies") as [c|e1] eqn:H1; cbn [rbind];
    [|intros [= ->]; exact (Get_TypeError _ _ _ H1)].
  destruct (Get c "length") as [len|e2] eqn:H2; cbn [rbind];
    [|intros [= ->]; exact (Get_TypeError _ _ _ H2)].
  destruct (gt_zero len) as [[|]|e3] eqn:H3; cbn [rbind];
    [| discriminate | intros [= ->]; exact (gt_zero_error _ _ H3)].
  destruct (Array_map _ c) as [topics|e4] eqn:H4; cbn [rbind].
  - destruct (Array_join topics ", ") as [joined|e5] eqn:H5; cbn [rbind];
      [discriminate | intros [= ->]; exact (Array_join_error _ _ _ H5)].
  - intros [= ->]. refine (Array_map_error _ _ _ _ H4).
    intros x e'. apply Get_TypeError.
Qed.

Lemma seoPrompt_error (a : val) (p : Platform) (e : JSError) :
  seoPrompt a p = Err e -> e = TypeError.
Proof.
  unfold seoPrompt, seoScenesContext.
  destruct (Get a "keyScenes") as [ks|e1] eqn:H1; cbn [rbind];
    [|intros [= ->]; exact (Get_TypeError _ _ _ H1)].
  destruct (Array_join ks "; ") as [sc|e2] eqn:H2; cbn [rbind];
    [|intros [= ->]; exact (Array_join_error _ _ _ H2)].
  destruct (seoControversyContext a) as [cc|e3] eqn:H3; cbn [rbind];
    [|intros [= ->]; exact (seoControversyContext_error _ _ H3)].
  destruct (interpolate a "summary") as [x1|e4] eqn:H4; cbn [rbind];
    [|intros [= ->]; exact (interpolate_error _ _ _ H4)].
  destruct (interpolate a "category") as [x2|e5] eqn:H5; cbn [rbind];
    [|intros [= ->]; exact (interpolate_error _ _ _ H5)].
  destruct (interpolate a "mood") as [x3|e6] eqn:H6; cbn [rbind];
    [|intros [= ->]; exact (interpolate_error _ _ _ H6)].
  destruct (interpolate a "sentiment") as [x4|e7] eqn:H7; cbn [rbind];
    [discriminate|intros [= ->]; exact (interpolate_error _ _ _ H7)].
Qed.

Lemma thumbnailPrompt_error (a : val) (e : JSError) :
  thumbnailPrompt a = Err e -> e = TypeError.
Proof.
  unfold thumbnailPrompt.
  destruct (Get a "keyScenes") as [ks|e1] eqn:H1; cbn [rbind];
    [|intros [= ->]; exact (Get_TypeError _ _ _ H1)].
  destruct (Array_join ks ", ") as [sc|e2] eqn:H2; cbn [rbind];
    [|intros [= ->]; exact (Array_join_error _ _ _ H2)].
  destruct (interpolate a "summary") as [x1|e4] eqn:H4; cbn [rbind];
    [discriminate|intros [= ->]; exact (interpolate_error _ _ _ H4)].
Qed.

Lemma thumbnailPrompt_of_seoPrompt (a : val) (p : Platform) (text : string) :
  seoPrompt a p = Ok text -> exists text', thumbnailPrompt a = Ok text'.
Proof.
  unfold seoPrompt, seoScenesContext, thumbnailPrompt.
  destruct (Get a "keyScenes") as [ks|] eqn:H1; cbn [rbind]; [|discriminate].
  destruct (Array_join ks "; ") as [sc|] eqn:H2; cbn [rbind]; [|discriminate].
  destruct (Array_join_separator ks "; " ", " sc H2) as [sc' ->]. cbn [rbind].
  destruct (seoControversyContext a); cbn [rbind]; [|discriminate].
  destruct (interpolate a "summary"); cbn [rbind]; [eauto|discriminate].
Qed.


(** ** Strings *)

Lemma append_inv_head (x a b : string) : (x ++ a)%string = (x ++ b)%string -> a = b.
Proof.
  induction x as [|c x IH]; cbn [append]; [auto|].
  intros [= H]. exact (IH H).
Qed.

Lemma string_append_assoc (a b c : string) :
  ((a ++ b) ++ c)%string = (a ++ b ++ c)%string.
Proof.
  induction a as [|x a IH]; [reflexivity|]. cbn [append]. rewrite IH. reflexivity.
Qed.

Lemma Infix_append_l (p s x : string) : Infix p s -> Infix p (s ++ x).
Proof.
  intros (before & after & ->). exists before, (after ++ x)%string.
  rewrite !string_append_assoc. reflexivity.
Qed.

Lemma Infix_refl (p : string) : Infix p p.
Proof.
  exists EmptyString, EmptyString. cbn [append].
  induction p as [|c p IH]; [reflexivity|]. cbn [append]. rewrite <- IH. reflexivity.
Qed.

Lemma Infix_join_strings (sep t : string) (l : list string) :
  In t l -> Infix t (join_strings sep l).
Proof.
  induction l as [|s l IH]; [contradiction|].
  intros [->|Hin].
  - destruct l; cbn [join_strings]; [apply Infix_refl|].
    apply Infix_append_l, Infix_refl.
  - destruct l as [|s' l]; [contradiction|].
    change (join_strings sep (s :: s' :: l))
      with (s ++ sep ++ join_strings sep (s' :: l))%string.
    do 2 apply Infix_append_r. exact (IH Hin).
Qed.

Lemma prefix_append (a b s : string) :
  String.prefix (a ++ b) s = true -> String.prefix a s = true.
Proof.
  revert s. induction a as [|c a IH]; intros s; [destruct s; reflexivity|].
  destruct s as [|d s]; cbn [append String.prefix]; [discriminate|].
  destruct (Ascii.ascii_dec c d); [apply IH|discriminate].
Qed.

Lemma not_Infix_cons (c : ascii) (s : string) :
  ~ Infix "," (String c s) -> c <> ","%char /\ ~ Infix "," s.
Proof.
  intros Hno. split.
  - intros ->. apply Hno. exists EmptyString, s. reflexivity.
  - intros (before & after & ->). apply Hno.
    exists (String c before), after. reflexivity.
Qed.

Lemma after_comma_none (s : string) : ~ Infix "," s -> after_comma s = None.
Proof.
  induction s as [|c s IH]; [reflexivity|]. intros Hno.
  destruct (not_Infix_cons c s Hno) as [Hc Hs]. cbn [after_comma].
  destruct (Ascii.eqb_spec c ","); [contradiction|]. exact (IH Hs).
Qed.

Lemma after_comma_append (header rest : string) :
  ~ Infix "," header -> after_comma (header ++ "," ++ rest) = Some rest.
Proof.
  induction header as [|c h IH]; [reflexivity|]. intros Hno.
  destruct (not_Infix_cons c h Hno) as [Hc Hh]. cbn [append after_comma].
  destruct (Ascii.eqb_spec c ","); [contradiction|]. exact (IH Hh).
Qed.

Lemma before_comma_whole (s : string) : ~ Infix "," s -> before_comma s = s.
Proof.
  induction s as [|c s IH]; [reflexivity|]. intros Hno.
  destruct (not_Infix_cons c s Hno) as [Hc Hs]. cbn [before_comma].
  destruct (Ascii.eqb_spec c ","); [contradiction|]. rewrite (IH Hs). reflexivity.
Qed.

Lemma before_comma_append (payload rest : string) :
  ~ Infix "," payload -> before_comma (payload ++ "," ++ rest) = payload.
Proof.
  induction payload as [|c s IH]; [reflexivity|]. intros Hno.
  destruct (not_Infix_cons c s Hno) as [Hc Hs]. cbn [append before_comma].
  destruct (Ascii.eqb_spec c ","); [contradiction|]. f_equal. exact (IH Hs).
Qed.

(** ** Well-typed analyses at run time *)

Lemma mapM_topics (cs : list Controversy) :
  mapM (fun c : val => Get c "topic") (map Controversy_val cs)
  = Ok (map (fun c => VStr (topic c)) cs).
Proof.
  induction cs as [|c cs IH]; [reflexivity|].
  cbn [map mapM]. rewrite IH. reflexivity.
Qed.

Lemma seoControversyContext_typed (a : AnalysisResult) :
  seoControversyContext (AnalysisResult_val a : val)
  = Ok (controversyContextOf (controversies a)).
Proof.
  unfold seoControversyContext, AnalysisResult_val.
  cbn [Get lookup String.eqb Ascii.eqb Bool.eqb rbind gt_zero].
  rewrite Number_gt_zero_of_nat, length_map.
  destruct (controversies a) as [|c cs]; [reflexivity|].
  cbn [List.length Nat.ltb Nat.leb Array_map]. rewrite mapM_topics. cbn [rbind Array_join].
  rewrite <- (map_map topic (fun s => VStr s : val)).
  rewrite mapM_elementToString_strings. reflexivity.
Qed.

Lemma seoPrompt_typed (a : AnalysisResult) (p : Platform) :
  seoPrompt (AnalysisResult_val a : val) p
  = Ok (seoPromptText (summary a) (category a) (mood a) (sentiment a)
          (join_strings "; " (keyScenes a))
          (controversyContextOf (controversies a))
          (Platform_name p) (platformStrategies p)).
Proof.
  unfold seoPrompt. rewrite seoControversyContext_typed.
  unfold seoScenesContext, interpolate, AnalysisResult_val.
  cbn [Get lookup String.eqb Ascii.eqb Bool.eqb rbind Array_join ToString].
  rewrite mapM_elementToString_strings. reflexivity.
Qed.

Lemma thumbnailPrompt_typed (a : AnalysisResult) :
  thumbnailPrompt (AnalysisResult_val a : val)
  = Ok (thumbnailPromptText (summary a) (join_strings ", " (keyScenes a))).
Proof.
  unfold thumbnailPrompt, interpolate, AnalysisResult_val.
  cbn [Get lookup String.eqb Ascii.eqb Bool.eqb rbind Array_join ToString].
  rewrite mapM_elementToString_strings. reflexivity.
Qed.

Lemma seoPrompt_shape (a : val) (p : Platform) (text : string) :
  seoPrompt a p = Ok text ->
  exists summary category mood sentiment scenes context,
    forall p', seoPrompt a p' =
      Ok (seoPromptText summary category mood sentiment scenes context
            (Platform_name p') (platformStrategies p')).
Proof.
  unfold seoPrompt.
  destruct (seoScenesContext a) as [x1|]; cbn [rbind]; [|discriminate].
  destruct (seoControversyContext a) as [x2|]; cbn [rbind]; [|discriminate].
  destruct (interpolate a "summary") as [x3|]; cbn [rbind]; [|discriminate].
  destruct (interpolate a "category") as [x4|]; cbn [rbind]; [|discriminate].
  destruct (interpolate a "mood") as [x5|]; cbn [rbind]; [|discriminate].
  destruct (interpolate a "sentiment") as [x6|]; cbn [rbind]; [|discriminate].
  intros _. exists x3, x4, x5, x6, x1, x2. reflexivity.
Qed.

Lemma with_fields_eta (s : AppState) :
  with_platform (platform s)
    (with_thumbnailConcepts (thumbnailConcepts s)
       (with_seo (seo s) (with_analysis (analysis s) s))) = s.
Proof. destruct s; reflexivity. Qed.

(** ** Uploads *)

(** X1.  When the browser cannot read the file, [processFlow] (and so the
    upload command) rejects with the reader's error before anything else
    happens: the state and the events are as they were, and no request was
    sent. *)
Theorem processFlow_rejects_unreadable_file :
  forall (env : Env) (w : World) (file : File) (p : Platform) (e : JSError),
    file_dataURL file = Err e ->
    processFlow file p env w = (Err e, w) /\
    submitMedia file env w = (Err e, w).
Proof.
  intros env w file p e Hfile. split.
  - apply processFlow_unreadable. exact Hfile.
  - unfold submitMedia. cbv beta iota zeta delta [bind getState].
    rewrite (processFlow_unreadable env w file _ e Hfile). reflexivity.
Qed.

(** X2.  [fileToBase64] yields the text between the first comma of the data
    URL and the next one: the whole payload of [header,payload] when neither
    part holds a comma, the payload without what follows a further comma,
    and [undefined] when the data URL holds no comma at all. *)
Theorem fileToBase64_payload :
  forall (env : Env) (w : World) (file : File) (header payload : string),
    ~ Infix "," header ->
    ~ Infix "," payload ->
    (file_dataURL file = Ok (header ++ "," ++ payload)%string ->
     fileToBase64 file env w = (Ok (VStr payload), w)) /\
    (forall rest,
       file_dataURL file = Ok (header ++ "," ++ payload ++ "," ++ rest)%string ->
       fileToBase64 file env w = (Ok (VStr payload), w)) /\
    (file_dataURL file = Ok header ->
     fileToBase64 file env w = (Ok VUndefined, w)).
Proof.
  intros env w file header payload Hheader Hpayload.
  unfold fileToBase64, split_comma_1, ret. repeat split.
  - intros ->. rewrite (after_comma_append header payload Hheader).
    rewrite (before_comma_whole payload Hpayload). reflexivity.
  - intros rest ->. rewrite (after_comma_append header _ Hheader).
    rewrite (before_comma_append payload rest Hpayload). reflexivity.
  - intros ->. rewrite (after_comma_none header Hheader). reflexivity.
Qed.

(** X3.  A run on a readable file replaces the media, drops the rendered
    thumbnail and keeps the active prompt and the selected platform; of the
    three results the state holds those of the stages that succeeded, and
    [null], [null] and the empty batch for the others. *)
Theorem processFlow_keeps_partial_results :
  forall (env : Env) (w : World) (file : File) (p : Platform) (url : string)
         (r : result unit) (w' : World),
    file_dataURL file = Ok url ->
    processFlow file p env w = (r, w') ->
    let base64 := split_comma_1 url in
    let mime := file_type file in
    let n := sent (events w) in
    media (app w') =
      {| media_file := Some file; media_preview := Some (createObjectURL env file);
         media_type := Some (kindOf file); media_base64 := base64 |} /\
    generatedThumbnail (app w') = None /\
    activePrompt (app w') = activePrompt (app w) /\
    platform (app w') = platform (app w) /\
    match analyzeMedia_result env n base64 mime with
    | Err _ =>
        analysis (app w') = VNull /\ seo (app w') = VNull /\
        thumbnailConcepts (app w') = VArr []
    | Ok a =>
        analysis (app w') = a /\
        match generateSEO_result env (S n) a p with
        | Err _ => seo (app w') = VNull /\ thumbnailConcepts (app w') = VArr []
        | Ok s =>
            seo (app w') = s /\
            match generateThumbnailPrompts_result env (S (S n)) a with
            | Err _ => thumbnailConcepts (app w') = VArr []
            | Ok t =>
                thumbnailConcepts (app w') =
                  match Get t "concepts" with
                  | Ok concepts => concepts
                  | Err _ => VArr []
                  end
            end
        end
    end.
Proof.
  intros env w file p url r w' Hfile Hrun base64 mime n.
  destruct (processFlow_fields env w file p url r w' Hfile Hrun)
    as (Hmedia & Hthumb & Hactive & Hplatform & _ & _ & new & _ & Hcases).
  fold base64 mime n in Hcases.
  repeat (split; [assumption|]).
  destruct (analyzeMedia_result env n base64 mime) as [a|e].
  2:{ destruct Hcases as (H1 & H2 & H3 & _). auto. }
  destruct Hcases as [Han Hcases]. split; [exact Han|].
  destruct (generateSEO_result env (S n) a p) as [s|e].
  2:{ destruct Hcases as (H1 & H2 & _). auto. }
  destruct Hcases as (Hseo & seoText & _ & Hcases). split; [exact Hseo|].
  destruct (generateThumbnailPrompts_result env (S (S n)) a) as [t|e].
  2:{ destruct Hcases as (H1 & _). exact H1. }
  destruct Hcases as (thumbText & _ & _ & _ & Hcases).
  destruct (Get t "concepts") as [concepts|e].
  - destruct Hcases as [H _]. exact H.
  - destruct Hcases as [H _]. exact H.
Qed.

(** X4.  The phases of a run are set in the order analyzing, optimizing,
    visualizing, each only after the stage before it succeeded, and the last
    phase set is always idle. *)
Theorem processFlow_phases_in_order :
  forall (env : Env) (w : World) (file : File) (p : Platform) (url : string)
         (r : result unit) (w' : World),
    file_dataURL file = Ok url ->
    processFlow file p env w = (r, w') ->
    let base64 := split_comma_1 url in
    let mime := file_type file in
    let n := sent (events w) in
    exists new,
      events w' = new ++ events w /\
      phase_log new =
        match analyzeMedia_result env n base64 mime with
        | Err _ => [analyzing; idle]
        | Ok a =>
            match generateSEO_result env (S n) a p with
            | Err _ => [analyzing; optimizing; idle]
            | Ok _ => [analyzing; optimizing; visualizing; idle]
            end
        end.
Proof.
  intros env w file p url r w' Hfile Hrun base64 mime n.
  destruct (processFlow_fields env w file p url r w' Hfile Hrun)
    as (_ & _ & _ & _ & _ & _ & new & Hev & Hcases).
  fold base64 mime n in Hcases.
  exists new. split; [exact Hev|].
  destruct (analyzeMedia_result env n base64 mime) as [a|e].
  2:{ destruct Hcases as (_ & _ & _ & H & _). exact H. }
  destruct Hcases as [_ Hcases].
  destruct (generateSEO_result env (S n) a p) as [s|e].
  2:{ destruct Hcases as (_ & _ & H & _). exact H. }
  destruct Hcases as (_ & seoText & _ & Hcases).
  destruct (generateThumbnailPrompts_result env (S (S n)) a) as [t|e].
  2:{ destruct Hcases as (_ & H & _). exact H. }
  destruct Hcases as (thumbText & _ & H & _). exact H.
Qed.

(** X5.  A run sends the analysis request first and exactly once, then at
    most one SEO request and at most one thumbnail request, in that order:
    never more than three requests and none twice; a run that commits a
    record sent exactly the three. *)
Theorem processFlow_sends_each_request_once :
  forall (env : Env) (w : World) (file : File) (p : Platform) (url : string)
         (r : result unit) (w' : World),
    file_dataURL file = Ok url ->
    processFlow file p env w = (r, w') ->
    exists new seoRequests thumbnailRequests,
      events w' = new ++ events w /\
      request_log new =
        analyzeMediaRequest (split_comma_1 url) (file_type file)
        :: seoRequests ++ thumbnailRequests /\
      (seoRequests = [] \/ exists text, seoRequests = [seoRequest text]) /\
      (thumbnailRequests = [] \/
       exists text, thumbnailRequests = [thumbnailRequest text]) /\
      (seoRequests = [] -> thumbnailRequests = []) /\
      (commits new <> [] ->
       List.length seoRequests = 1 /\ List.length thumbnailRequests = 1).
Proof.
  intros env w file p url r w' Hfile Hrun.
  destruct (processFlow_fields env w file p url r w' Hfile Hrun)
    as (_ & _ & _ & _ & _ & _ & new & Hev & Hcases).
  cbv zeta in Hcases. exists new.
  destruct (analyzeMedia_result env _ _ _) as [a|e].
  2:{ destruct Hcases as (_ & _ & _ & _ & Hreq & Hcom).
      exists [], []. rewrite Hcom. repeat split; auto; congruence. }
  destruct Hcases as [_ Hcases].
  destruct (generateSEO_result env _ a p) as [s|e].
  2:{ destruct Hcases as (_ & _ & _ & Hreq & Hcom).
      exists (requestOf (seoPrompt a p) seoRequest), [].
      rewrite app_nil_r, Hcom. repeat split; auto; try congruence.
      destruct (seoPrompt a p); cbn [requestOf]; eauto. }
  destruct Hcases as (_ & seoText & _ & Hcases).
  destruct (generateThumbnailPrompts_result env _ a) as [t|e].
  2:{ destruct Hcases as (_ & _ & Hreq & Hcom).
      exists [seoRequest seoText], (requestOf (thumbnailPrompt a) thumbnailRequest).
      rewrite Hcom. repeat split; auto; try congruence.
      - right. eauto.
      - destruct (thumbnailPrompt a); cbn [requestOf]; eauto. }
  destruct Hcases as (thumbText & _ & _ & Hreq & _).
  exists [seoRequest seoText], [thumbnailRequest thumbText].
  repeat split; auto; try congruence; right; eauto.
Qed.

(** X6.  The record a run commits holds the media kind derived from the
    file's type, the platform the run was started with, the three results,
    the [summary] property of the analysis as its summary, the text of one
    clock reading as its id and the next clock reading as its timestamp. *)
Theorem processFlow_record_contents :
  forall (env : Env) (w : World) (file : File) (p : Platform) (url : string)
         (r : result unit) (w' : World) (new : list Event) (item : HistoryItem),
    file_dataURL file = Ok url ->
    processFlow file p env w = (r, w') ->
    events w' = new ++ events w ->
    commits new = [item] ->
    item_mediaType item = kindOf file /\
    item_platform item = p /\
    item_analysis item = analysis (app w') /\
    item_seo item = seo (app w') /\
    item_thumbnailConcepts item = thumbnailConcepts (app w') /\
    Get (item_analysis item) "summary" = Ok (item_mediaSummary item) /\
    item_id item = Number_toString (clock env (clock_reads (events w))) /\
    item_timestamp item = clock env (S (clock_reads (events w))).
Proof.
  intros env w file p url r w' new item Hfile Hrun Hev Hcom.
  destruct (processFlow_fields env w file p url r w' Hfile Hrun)
    as (_ & _ & _ & _ & _ & _ & new' & Hev' & Hcases).
  assert (new' = new) as ->.
  { rewrite Hev in Hev'. symmetry. exact (app_inv_tail _ _ _ Hev'). }
  cbv zeta in Hcases.
  destruct (analyzeMedia_result env _ _ _) as [a|e].
  2:{ destruct Hcases as (_ & _ & _ & _ & _ & H). congruence. }
  destruct Hcases as [Han Hcases].
  destruct (generateSEO_result env _ a p) as [s|e].
  2:{ destruct Hcases as (_ & _ & _ & _ & H). congruence. }
  destruct Hcases as (Hseo & seoText & _ & Hcases).
  destruct (generateThumbnailPrompts_result env _ a) as [t|e].
  2:{ destruct Hcases as (_ & _ & _ & H). congruence. }
  destruct Hcases as (thumbText & _ & _ & _ & Hcases).
  destruct (Get t "concepts") as [concepts|e].
  2:{ destruct Hcases as (_ & H). congruence. }
  destruct Hcases as (Hconcepts & summary & Hsummary & Hitem).
  rewrite Hitem in Hcom. injection Hcom as <-.
  rewrite Han, Hseo, Hconcepts. cbn [recordOf item_mediaType item_platform
    item_analysis item_seo item_thumbnailConcepts item_mediaSummary item_id
    item_timestamp].
  repeat split; try reflexivity. exact Hsummary.
Qed.

(** X7.  What the analysis request says about the media and what the run
    records agree on videos: when the request text speaks of a video (the
    type starts with [video/]), the media kind is video; and when the media
    kind is image, the request text speaks of an image. *)
Theorem video_request_implies_video_kind :
  forall (base64 : val) (file : File),
    let request := analyzeMediaRequest base64 (file_type file) in
    (String.prefix "video/" (file_type file) = true ->
     contents request =
       PromptParts [ InlineDataPart base64 (file_type file);
                     TextPart (analyzePromptText true) ] /\
     kindOf file = video) /\
    (kindOf file = image ->
     contents request =
       PromptParts [ InlineDataPart base64 (file_type file);
                     TextPart (analyzePromptText false) ]).
Proof.
  intros base64 file request. unfold request, analyzeMediaRequest, kindOf.
  cbn [contents]. split.
  - intros Hvideo. rewrite Hvideo. split; [reflexivity|].
    rewrite (prefix_append "video" "/" _ Hvideo). reflexivity.
  - destruct (String.prefix "video" (file_type file)) eqn:Hkind; [discriminate|].
    intros _. destruct (String.prefix "video/" (file_type file)) eqn:Hvideo;
      [|reflexivity].
    rewrite (prefix_append "video" "/" _ Hvideo) in Hkind. discriminate.
Qed.

(** ** The gateway *)


(** X9.  When the request text of [generateSEO] could be built from an
    analysis, so can that of [generateThumbnailPrompts]: after a successful
    SEO stage, the thumbnail stage fails only because the backend rejected
    its request or because the response text did not parse. *)
Theorem thumbnail_stage_fails_only_at_the_backend :
  forall (env : Env) (n m : nat) (a s : val) (p : Platform) (e : JSError),
    generateSEO_result env n a p = Ok s ->
    generateThumbnailPrompts_result env m a = Err e ->
    exists prompt,
      thumbnailPrompt a = Ok prompt /\
      (backend env m (thumbnailRequest prompt) = Err e \/
       exists response,
         backend env m (thumbnailRequest prompt) = Ok response /\
         JSON_parse (text_or (text response) empty_concepts_text) = Err e /\
         e = SyntaxError).
Proof.
  intros env n m a s p e Hs Ht.
  destruct (generateSEO_result_prompt _ _ _ _ _ Hs) as [seoText Hp].
  destruct (thumbnailPrompt_of_seoPrompt a p seoText Hp) as [prompt Htext].
  exists prompt. split; [exact Htext|].
  unfold generateThumbnailPrompts_result in Ht. rewrite Htext in Ht. cbn [rbind] in Ht.
  destruct (backend env m (thumbnailRequest prompt)) as [response|e'];
    cbn [rbind] in Ht.
  - right. exists response. repeat split; [exact Ht|].
    exact (JSON_parse_throws_SyntaxError _ _ Ht).
  - left. injection Ht as ->. reflexivity.
Qed.

(** X10.  A failure of [generateSEO] is one of three: a [TypeError] thrown
    while the request text is built, in which case no request is sent; the
    error the backend rejected the request with; or the [SyntaxError] of a
    response text that does not parse.  For a well-typed analysis the first
    never happens. *)
Theorem generateSEO_failures :
  (forall (env : Env) (w : World) (a : val) (p : Platform) (e : JSError),
     fst (generateSEO a p env w) = Err e ->
     (seoPrompt a p = Err e /\ e = TypeError /\
      request_log (events (snd (generateSEO a p env w))) = request_log (events w))
     \/
     (exists prompt,
        seoPrompt a p = Ok prompt /\
        request_log (events (snd (generateSEO a p env w))) =
          request_log (events w) ++ [seoRequest prompt] /\
        (backend env (sent (events w)) (seoRequest prompt) = Err e \/
         exists response,
           backend env (sent (events w)) (seoRequest prompt) = Ok response /\
           e = SyntaxError))) /\
  (forall (a : AnalysisResult) (p : Platform),
     exists prompt, seoPrompt (AnalysisResult_val a : val) p = Ok prompt).
Proof.
  split.
  - intros env w a p e. rewrite generateSEO_run. cbv zeta. cbn [fst snd].
    unfold generateSEO_result.
    destruct (seoPrompt a p) as [prompt|e'] eqn:Hp; cbn [rbind].
    + intros Hfail. right. exists prompt. split; [reflexivity|].
      split; [reflexivity|].
      destruct (backend env (sent (events w)) (seoRequest prompt)) as [response|e''];
        cbn [rbind] in Hfail.
      * right. exists response. split; [reflexivity|].
        exact (JSON_parse_throws_SyntaxError _ _ Hfail).
      * left. injection Hfail as ->. reflexivity.
    + intros [= ->]. left. split; [reflexivity|].
      split; [exact (seoPrompt_error _ _ _ Hp) | reflexivity].
  - intros a p. rewrite seoPrompt_typed. eauto.
Qed.

(** X11.  For a well-typed analysis with controversies, the controversy
    context of [generateSEO] is the note that lists their topics in order,
    separated by commas, and every topic occurs in the request text. *)
Theorem generateSEO_lists_controversy_topics :
  forall (a : AnalysisResult) (p : Platform),
    controversies a <> [] ->
    seoControversyContext (AnalysisResult_val a : val) =
      Ok ("Note: Content touches on sensitive topics: "
          ++ join_strings ", " (map topic (controversies a)) ++ ".")%string /\
    exists text,
      seoPrompt (AnalysisResult_val a : val) p = Ok text /\
      forall c, In c (controversies a) -> Infix (topic c) text.
Proof.
  intros a p Hsome. rewrite seoControversyContext_typed, seoPrompt_typed.
  destruct (controversies a) as [|c0 cs] eqn:Hcs; [contradiction Hsome; reflexivity|].
  split; [reflexivity|]. eexists. split; [reflexivity|].
  intros c Hin. unfold seoPromptText. do 15 apply Infix_append_r.
  apply Infix_append_l. unfold controversyContextOf, controversyNote.
  apply Infix_append_r, Infix_append_l. apply Infix_join_strings.
  apply in_map. exact Hin.
Qed.

(** X12.  The request texts [generateSEO] builds from one analysis for two
    different platforms are different. *)
Theorem generateSEO_request_names_the_platform :
  forall (a : val) (p p' : Platform) (text text' : string),
    seoPrompt a p = Ok text ->
    seoPrompt a p' = Ok text' ->
    p <> p' ->
    text <> text'.
Proof.
  intros a p p' text text' Hp Hp' Hdiff Heq. apply Hdiff.
  destruct (seoPrompt_shape a p text Hp)
    as (summary & category & mood & sentiment & scenes & context & Hshape).
  rewrite Hshape in Hp, Hp'. injection Hp as <-. injection Hp' as <-.
  unfold seoPromptText in Heq.
  do 20 apply append_inv_head in Heq.
  destruct p, p'; try reflexivity; cbn [Platform_name append] in Heq;
    discriminate Heq.
Qed.

(** ** Platform changes *)

(** X13.  After a run whose analysis stage failed no analysis is held, and
    a platform change then records the platform and does nothing else: no
    gateway call, no event, and every other field of the state is as it
    was. *)
Theorem platform_change_after_failed_analysis :
  forall (env : Env) (w : World) (file : File) (p p' : Platform) (url : string)
         (r : result unit) (w' : World) (e : JSError),
    file_dataURL file = Ok url ->
    processFlow file p env w = (r, w') ->
    analyzeMedia_result env (sent (events w)) (split_comma_1 url) (file_type file)
      = Err e ->
    handlePlatformChange p' env w' =
      (Ok tt, {| app := with_platform p' (app w'); events := events w' |}).
Proof.
  intros env w file p p' url r w' e Hfile Hrun Ha.
  destruct (processFlow_fields env w file p url r w' Hfile Hrun)
    as (_ & _ & _ & _ & _ & _ & new & _ & Hfields).
  cbv zeta in Hfields. rewrite Ha in Hfields. destruct Hfields as [Han _].
  unfold handlePlatformChange.
  cbv beta iota zeta delta [bind getState setPlatform modify ret].
  cbn [app events]. rewrite Han. reflexivity.
Qed.

(** X14.  A platform change with an analysis held sets the phase to
    optimizing before the call; when the call succeeds the phase ends at
    idle, and when it fails the handler rejects with the call's error and
    the phase stays at optimizing: nothing catches the error or resets the
    phase. *)
Theorem handlePlatformChange_phase :
  forall (env : Env) (w : World) (p : Platform) (r : result unit) (w' : World),
    isTruthy (analysis (app w)) = true ->
    handlePlatformChange p env w = (r, w') ->
    exists new,
      events w' = new ++ events w /\
      match generateSEO_result env (sent (events w)) (analysis (app w)) p with
      | Ok _ =>
          r = Ok tt /\ phase_log new = [optimizing; idle] /\
          loadingStep (app w') = idle /\ console_log new = []
      | Err e =>
          r = Err e /\ phase_log new = [optimizing] /\
          loadingStep (app w') = optimizing /\ console_log new = []
      end.
Proof.
  intros env w p r w' Htruthy Hrun.
  unfold handlePlatformChange in Hrun. run_step Hrun. rewrite Htruthy in Hrun.
  run_step Hrun. rewrite generateSEO_run in Hrun. run_step Hrun.
  destruct (generateSEO_result env (sent (events w)) (analysis (app w)) p);
    destruct (seoPrompt (analysis (app w)) p); run_step Hrun;
    injection Hrun as <- <-; eexists; (split; [events_prefix|]);
    repeat split; reflexivity.
Qed.


Lemma processFlow_record_fields (env : Env) (w : World) file p url r w'
    (new : list Event) (item : HistoryItem) :
  file_dataURL file = Ok url ->
  processFlow file p env w = (r, w') ->
  events w' = new ++ events w ->
  commits new = [item] ->
  item_platform item = p /\
  item_analysis item = analysis (app w') /\
  item_seo item = seo (app w') /\
  item_thumbnailConcepts item = thumbnailConcepts (app w') /\
  platform (app w') = platform (app w) /\
  history (app w') = item :: firstn 19 (history (app w)).
Proof.
  intros Hfile Hrun Hev Hcom.
  destruct (processFlow_fields env w file p url r w' Hfile Hrun)
    as (_ & _ & _ & Hplatform & _).
  destruct (processFlow_cases env w file p url r w' Hfile Hrun)
    as (_ & _ & new' & Hev' & _ & Hcases).
  assert (new' = new) as ->.
  { rewrite Hev in Hev'. symmetry. exact (app_inv_tail _ _ _ Hev'). }
  destruct Hcases as
    [(a & s & t & concepts & item' & _ & _ & _ & _ & _ & Hcom' & Hia & His & Hic
        & Hip & Hhist & Han & Hseo & Hth & _)
    |(e & Hcom' & _)].
  - rewrite Hcom in Hcom'. injection Hcom' as <-.
    rewrite Han, Hseo, Hth. repeat split; assumption.
  - rewrite Hcom in Hcom'. discriminate Hcom'.
Qed.

(** ** Rendering and recalling *)

(** X15.  [generateNanoBananaImage] answers with the first part of the first
    candidate that carries inline data, as a PNG data URL whatever MIME type
    the part declares; the other candidates are never looked at. *)
Theorem generateNanoBananaImage_first_inline_part :
  (forall (c : Candidate) (cs : list Candidate) (ct : Content)
          (before after : list Part) (p : Part) (blob : Blob) (t : option string),
     content c = Some ct ->
     parts ct = Some (before ++ p :: after) ->
     Forall (fun q => inlineData q = None) before ->
     inlineData p = Some blob ->
     imageOfResponse {| candidates := Some (c :: cs); text := t |} =
       Ok ("data:image/png;base64," ++ option_toString (data blob))%string) /\
  (forall (c : Candidate) (cs : list Candidate) (t t' : option string),
     imageOfResponse {| candidates := Some (c :: cs); text := t |} =
     imageOfResponse {| candidates := Some [c]; text := t' |}).
Proof.
  split.
  - intros c cs ct before after p blob t Hct Hparts Hbefore Hp.
    unfold imageOfResponse, findInlinePart. cbn [candidates].
    rewrite Hct, Hparts.
    assert (Hfind : List.find has_inlineData (before ++ p :: after) = Some p).
    { clear Hparts.
      induction Hbefore as [|q before Hq _ IH]; cbn [Datatypes.app List.find].
      - unfold has_inlineData at 1. rewrite Hp. reflexivity.
      - unfold has_inlineData at 1. rewrite Hq. exact IH. }
    rewrite Hfind. cbn [rbind]. rewrite Hp. reflexivity.
  - intros c cs t t'. reflexivity.
Qed.

(** X16.  A forge sends exactly one request, for the given prompt, and
    touches nothing of the pipeline: phase, analysis, SEO package, thumbnail
    concepts and history are as before and nothing is committed; when the
    render succeeds the rendered thumbnail is its image. *)
Theorem handleForgeThumbnail_leaves_pipeline :
  forall (env : Env) (w : World) (prompt : string) (r : result unit) (w' : World),
    handleForgeThumbnail prompt env w = (r, w') ->
    r = Ok tt /\
    loadingStep (app w') = loadingStep (app w) /\
    analysis (app w') = analysis (app w) /\
    seo (app w') = seo (app w) /\
    thumbnailConcepts (app w') = thumbnailConcepts (app w) /\
    history (app w') = history (app w) /\
    exists new,
      events w' = new ++ events w /\
      request_log new = [imageRequest prompt] /\
      commits new = [] /\
      phase_log new = [] /\
      forall img,
        generateNanoBananaImage_result env (sent (events w)) prompt = Ok img ->
        generatedThumbnail (app w') = Some img /\ console_log new = [].
Proof.
  intros env w prompt r w' Hrun.
  unfold handleForgeThumbnail in Hrun. run_step Hrun.
  rewrite generateNanoBananaImage_run in Hrun. run_step Hrun.
  destruct (generateNanoBananaImage_result env (sent (events w)) prompt)
    as [img|e]; run_step Hrun; injection Hrun as <- <-;
    (repeat (split; [reflexivity|]));
    eexists; (split; [events_prefix|]);
    (repeat (split; [reflexivity|])).
  - intros img' [= <-]. split; reflexivity.
  - intros img' Habs. discriminate Habs.
Qed.

(** X17.  Recalling a record shows its analysis and platform, its SEO
    package (or [null] when the record holds none) and its thumbnail
    concepts (or the empty batch when it holds none), and closes the vault;
    it calls no gateway function, logs nothing, and leaves the history, the
    media, the phase and the rendered thumbnail as they were; recalling the
    same record again changes nothing more. *)
Theorem recallRun_restores_results :
  forall (env : Env) (w : World) (item : HistoryItem),
    let w' := snd (recallRun item env w) in
    fst (recallRun item env w) = Ok tt /\
    analysis (app w') = item_analysis item /\
    platform (app w') = item_platform item /\
    seo (app w') =
      (if isTruthy (item_seo item) then item_seo item else VNull) /\
    thumbnailConcepts (app w') =
      (if isTruthy (item_thumbnailConcepts item)
       then item_thumbnailConcepts item else VArr []) /\
    showVault (app w') = false /\
    history (app w') = history (app w) /\
    media (app w') = media (app w) /\
    loadingStep (app w') = loadingStep (app w) /\
    generatedThumbnail (app w') = generatedThumbnail (app w) /\
    activePrompt (app w') = activePrompt (app w) /\
    events w' = events w /\
    recallRun item env w' = (Ok tt, w').
Proof.
  intros env w item. repeat split.
Qed.

(** X18.  Recalling the record a run has just committed shows what the run
    left on display: when the run's SEO package and thumbnail concepts are
    truthy, the state after the recall is the state after the run with the
    vault closed. *)
Theorem recall_after_run_is_identity :
  forall (env : Env) (w : World) (file : File) (url : string)
         (r : result unit) (w' : World) (new : list Event) (item : HistoryItem),
    file_dataURL file = Ok url ->
    submitMedia file env w = (r, w') ->
    events w' = new ++ events w ->
    commits new = [item] ->
    isTruthy (seo (app w')) = true ->
    isTruthy (thumbnailConcepts (app w')) = true ->
    In item (history (app w')) /\
    recallRun item env w' =
      (Ok tt, {| app := with_showVault false (app w'); events := events w' |}).
Proof.
  intros env w file url r w' new item Hfile Hrun Hev Hcom Hseo Hconcepts.
  unfold submitMedia in Hrun. cbv beta iota zeta delta [bind getState] in Hrun.
  cbn [app] in Hrun.
  destruct (processFlow_record_fields env w file (platform (app w)) url r w'
              new item Hfile Hrun Hev Hcom)
    as (Hip & Han & His & Hic & Hplatform & Hhist).
  split.
  - rewrite Hhist. left. reflexivity.
  - unfold recallRun, or_else.
    cbv beta iota zeta delta [bind setAnalysis setSeo setThumbnailConcepts
      setPlatform setShowVault modify].
    cbn [app events]. rewrite Han, His, Hic, Hip, <- Hplatform, Hseo, Hconcepts.
    rewrite with_fields_eta. reflexivity.
Qed.

(** ** The history under the commands *)

(** X19.  No command removes or alters a record other than by eviction: a
    command leaves the history as it is or puts one new record in front of
    its first 19 records; so a history of at most 20 records never gets
    shorter. *)
Theorem history_only_grows :
  forall (env : Env) (w : World) (c : Command number),
    let w' := snd (handle c env w) in
    (history (app w') = history (app w) \/
     exists item, history (app w') = item :: firstn 19 (history (app w))) /\
    (List.length (history (app w)) <= 20 ->
     List.length (history (app w)) <= List.length (history (app w'))).
Proof.
  intros env w c w'.
  assert (Hstep : history (app w') = history (app w) \/
                  exists item, history (app w') = item :: firstn 19 (history (app w))).
  { unfold w'. destruct c as [file|p|prompt|item|b]; cbn [handle].
    - unfold submitMedia. cbv beta iota zeta delta [bind getState]. cbn [app].
      destruct (file_dataURL file) as [url|e] eqn:Hfile.
      + destruct (processFlow file (platform (app w)) env w) as [r w1] eqn:Hrun.
        cbn [snd].
        destruct (processFlow_cases env w file _ url r w1 Hfile Hrun)
          as (_ & _ & new & _ & _ & Hcases).
        destruct Hcases as
          [(a & s & t & concepts & item & _ & _ & _ & _ & _ & _ & _ & _ & _ & _
              & Hhist & _)
          |(e & _ & Hhist & _)].
        * right. exists item. exact Hhist.
        * left. exact Hhist.
      + rewrite (processFlow_unreadable env w file _ e Hfile). left. reflexivity.
    - destruct (handlePlatformChange p env w) as [r w1] eqn:Hrun. cbn [snd].
      destruct (handlePlatformChange_cases env w p r w1 Hrun)
        as (_ & _ & _ & Hhist & _). left. exact Hhist.
    - destruct (handleForgeThumbnail prompt env w) as [r w1] eqn:Hrun. cbn [snd].
      destruct (handleForgeThumbnail_cases env w prompt r w1 Hrun)
        as (_ & _ & _ & Hhist & _). left. exact Hhist.
    - left. reflexivity.
    - left. reflexivity. }
  split; [exact Hstep|].
  intros Hlen. destruct Hstep as [-> | (item & ->)]; [lia|].
  cbn [List.length]. rewrite length_firstn. lia.
Qed.

End Further.

(** * Further properties on concrete runs *)


Import MoreExamples.

Lemma infixb_complete (p s : string) : Infix p s -> infixb p s = true.
Proof.
  intros (before & after & ->).
  induction before as [|c before IH].
  - cbn [append]. assert (H : String.prefix p (p ++ after) = true).
    { induction p as [|d p IHp]; [destruct after; reflexivity|].
      cbn [append String.prefix]. destruct (Ascii.ascii_dec d d); [exact IHp|].
      contradiction. }
    destruct (p ++ after)%string; cbn [infixb]; rewrite H; reflexivity.
  - cbn [append infixb]. rewrite IH. apply orb_true_r.
Qed.

Lemma not_Infix_of_infixb (p s : string) : infixb p s = false -> ~ Infix p s.
Proof.
  intros Hfalse Hin. rewrite (infixb_complete p s Hin) in Hfalse. discriminate.
Qed.

(** X1 on a file that cannot be read. *)
Lemma processFlow_rejects_unreadable_file_witness :
  file_dataURL unreadable_file = Err FileReadError /\
  processFlow unreadable_file YouTube complete_env start = (Err FileReadError, start).
Proof.
  split; [reflexivity|].
  exact (proj1 (processFlow_rejects_unreadable_file complete_env start
                  unreadable_file YouTube FileReadError eq_refl)).
Defined.

(** X2 on a PNG data URL. *)
Lemma fileToBase64_payload_witness :
  ~ Infix "," "data:image/png;base64" /\
  ~ Infix "," "iVBORw0KGgo=" /\
  fileToBase64 png_file complete_env start = (Ok (VStr "iVBORw0KGgo="), start).
Proof.
  assert (H1 : ~ Infix "," "data:image/png;base64").
  { apply not_Infix_of_infixb. vm_compute. reflexivity. }
  assert (H2 : ~ Infix "," "iVBORw0KGgo=").
  { apply not_Infix_of_infixb. vm_compute. reflexivity. }
  split; [exact H1|]. split; [exact H2|].
  exact (proj1 (fileToBase64_payload complete_env start png_file _ _ H1 H2) eq_refl).
Defined.

(** X3 on a run that completes. *)
Lemma processFlow_keeps_partial_results_witness :
  let run := processFlow png_file YouTube complete_env start in
  file_dataURL png_file = Ok "data:image/png;base64,iVBORw0KGgo=" /\
  processFlow png_file YouTube complete_env start = (fst run, snd run) /\
  generatedThumbnail (app (snd run)) = None /\
  activePrompt (app (snd run)) = activePrompt (app start).
Proof.
  cbv zeta.
  destruct (processFlow_keeps_partial_results complete_env start png_file YouTube
              "data:image/png;base64,iVBORw0KGgo=" _ _ eq_refl (surjective_pairing _))
    as (_ & Hthumb & Hactive & _).
  split; [reflexivity|]. split; [apply surjective_pairing|].
  split; [exact Hthumb | exact Hactive].
Defined.

(** X4 on a run whose analysis answer is cut off. *)
Lemma processFlow_phases_in_order_witness :
  let run := processFlow png_file YouTube truncated_env start in
  file_dataURL png_file = Ok "data:image/png;base64,iVBORw0KGgo=" /\
  processFlow png_file YouTube truncated_env start = (fst run, snd run) /\
  exists new,
    events (snd run) = new ++ events start /\
    phase_log new = [analyzing; idle].
Proof.
  cbv zeta.
  destruct (processFlow_phases_in_order truncated_env start png_file YouTube
              "data:image/png;base64,iVBORw0KGgo=" _ _ eq_refl (surjective_pairing _))
    as (new & Hev & Hphases).
  split; [reflexivity|]. split; [apply surjective_pairing|].
  exists new. split; [exact Hev|].
  rewrite Hphases. vm_compute. reflexivity.
Defined.

(** X5 on a run that completes. *)
Lemma processFlow_sends_each_request_once_witness :
  let run := processFlow png_file YouTube complete_env start in
  file_dataURL png_file = Ok "data:image/png;base64,iVBORw0KGgo=" /\
  processFlow png_file YouTube complete_env start = (fst run, snd run) /\
  exists new,
    events (snd run) = new ++ events start /\
    List.length (request_log new) <= 3.
Proof.
  cbv zeta.
  destruct (processFlow_sends_each_request_once complete_env start png_file YouTube
              "data:image/png;base64,iVBORw0KGgo=" _ _ eq_refl (surjective_pairing _))
    as (new & seoRequests & thumbnailRequests & Hev & Hlog & Hseo & Hthumb & _).
  split; [reflexivity|]. split; [apply surjective_pairing|].
  exists new. split; [exact Hev|].
  rewrite Hlog. cbn [List.length]. rewrite length_app.
  destruct Hseo as [-> | [x ->]]; destruct Hthumb as [-> | [y ->]];
    cbn [List.length]; lia.
Defined.

(** X6 on a run that completes. *)
Lemma processFlow_record_contents_witness :
  let run := processFlow png_file YouTube complete_env start in
  file_dataURL png_file = Ok "data:image/png;base64,iVBORw0KGgo=" /\
  processFlow png_file YouTube complete_env start = (fst run, snd run) /\
  events (snd run) = events (snd run) ++ events start /\
  exists item,
    commits (events (snd run)) = [item] /\
    item_mediaType item = image /\
    item_platform item = YouTube /\
    item_id item = "1700000000000" /\
    item_timestamp item = 1700000000001%Z.
Proof.
  cbv zeta.
  assert (Hcom : exists item,
             commits (events (snd (processFlow png_file YouTube complete_env start)))
             = [item]).
  { vm_compute. eexists. reflexivity. }
  destruct Hcom as [item Hcom].
  destruct (processFlow_record_contents complete_env start png_file YouTube
              "data:image/png;base64,iVBORw0KGgo=" _ _ _ item
              eq_refl (surjective_pairing _) (events_from_start _) Hcom)
    as (Hkind & Hplatform & _ & _ & _ & _ & Hid & Htime).
  split; [reflexivity|]. split; [apply surjective_pairing|].
  split; [apply events_from_start|].
  exists item. split; [exact Hcom|]. split; [exact Hkind|].
  split; [exact Hplatform|]. split; [exact Hid | exact Htime].
Defined.


(** X9 on a backend that answers the SEO request and rejects the thumbnail
    request. *)
Lemma thumbnail_stage_fails_only_at_the_backend_witness :
  let a := AnalysisResult_val analysis_record in
  generateSEO_result complete_env 1 a YouTube = Ok (VObj []) /\
  generateThumbnailPrompts_result complete_env 5 a
    = Err (RequestRejected "offline") /\
  exists prompt, thumbnailPrompt (number := Z) a = Ok prompt.
Proof.
  cbv zeta.
  assert (Hs : generateSEO_result complete_env 1 (AnalysisResult_val analysis_record)
                 YouTube = Ok (VObj [])).
  { vm_compute. reflexivity. }
  assert (Ht : generateThumbnailPrompts_result complete_env 5
                 (AnalysisResult_val analysis_record)
               = Err (RequestRejected "offline")).
  { vm_compute. reflexivity. }
  split; [exact Hs|]. split; [exact Ht|].
  destruct (thumbnail_stage_fails_only_at_the_backend complete_env 1 5 _ _ _ _ Hs Ht)
    as (prompt & Hprompt & _).
  exists prompt. exact Hprompt.
Defined.

(** X11 on an analysis with two controversies. *)
Lemma generateSEO_lists_controversy_topics_witness :
  controversies risky_record <> [] /\
  seoControversyContext (number := Z) (AnalysisResult_val risky_record) =
    Ok "Note: Content touches on sensitive topics: Gambling, Alcohol.".
Proof.
  assert (H : controversies risky_record <> []) by discriminate.
  split; [exact H|].
  exact (proj1 (generateSEO_lists_controversy_topics (number := Z) risky_record
                  YouTube H)).
Defined.

(** X12 on YouTube and Twitter. *)
Lemma generateSEO_request_names_the_platform_witness :
  exists text text',
    seoPrompt (number := Z) (AnalysisResult_val analysis_record) YouTube = Ok text /\
    seoPrompt (number := Z) (AnalysisResult_val analysis_record) Twitter = Ok text' /\
    YouTube <> Twitter /\
    text <> text'.
Proof.
  assert (H1 : exists text,
             seoPrompt (number := Z) (AnalysisResult_val analysis_record) YouTube
             = Ok text).
  { vm_compute. eexists. reflexivity. }
  assert (H2 : exists text,
             seoPrompt (number := Z) (AnalysisResult_val analysis_record) Twitter
             = Ok text).
  { vm_compute. eexists. reflexivity. }
  destruct H1 as [text H1]. destruct H2 as [text' H2].
  assert (Hdiff : YouTube <> Twitter) by discriminate.
  exists text, text'. split; [exact H1|]. split; [exact H2|]. split; [exact Hdiff|].
  exact (generateSEO_request_names_the_platform _ _ _ _ _ H1 H2 Hdiff).
Defined.

(** X13 on a run whose analysis answer is cut off. *)
Lemma platform_change_after_failed_analysis_witness :
  let run := processFlow png_file YouTube truncated_env start in
  file_dataURL png_file = Ok "data:image/png;base64,iVBORw0KGgo=" /\
  processFlow png_file YouTube truncated_env start = (fst run, snd run) /\
  analyzeMedia_result truncated_env (sent (events start))
    (VStr "iVBORw0KGgo=") "image/png" = Err SyntaxError /\
  fst (handlePlatformChange Twitter truncated_env (snd run)) = Ok tt.
Proof.
  cbv zeta.
  assert (Ha : analyzeMedia_result truncated_env (sent (events start))
                 (VStr "iVBORw0KGgo=") "image/png" = Err SyntaxError).
  { vm_compute. reflexivity. }
  split; [reflexivity|]. split; [apply surjective_pairing|]. split; [exact Ha|].
  rewrite (platform_change_after_failed_analysis truncated_env start png_file
             YouTube Twitter "data:image/png;base64,iVBORw0KGgo=" _ _ SyntaxError
             eq_refl (surjective_pairing _) Ha).
  reflexivity.
Defined.

(** X14 on a platform change the backend rejects. *)
Lemma handlePlatformChange_phase_witness :
  let run := handlePlatformChange Twitter offline_env packaged in
  isTruthy (analysis (app packaged)) = true /\
  handlePlatformChange Twitter offline_env packaged = (fst run, snd run) /\
  exists new,
    events (snd run) = new ++ events packaged /\
    fst run = Err (RequestRejected "offline") /\
    loadingStep (app (snd run)) = optimizing.
Proof.
  cbv zeta.
  destruct (handlePlatformChange_phase offline_env packaged Twitter _ _
              eq_refl (surjective_pairing _)) as (new & Hev & Hcase).
  assert (Hs : generateSEO_result offline_env (sent (events packaged))
                 (analysis (app packaged)) Twitter
               = Err (RequestRejected "offline")).
  { vm_compute. reflexivity. }
  rewrite Hs in Hcase. destruct Hcase as (Hr & _ & Hphase & _).
  split; [reflexivity|]. split; [apply surjective_pairing|].
  exists new. split; [exact Hev|]. split; [exact Hr | exact Hphase].
Defined.

(** X16 on a forge that succeeds. *)
Lemma handleForgeThumbnail_leaves_pipeline_witness :
  let run := handleForgeThumbnail "a neon cat" one_image_env start in
  handleForgeThumbnail "a neon cat" one_image_env start = (fst run, snd run) /\
  fst run = Ok tt /\
  history (app (snd run)) = history (app start) /\
  generatedThumbnail (app (snd run)) = Some "data:image/png;base64,QUJD".
Proof.
  cbv zeta.
  destruct (handleForgeThumbnail_leaves_pipeline one_image_env start "a neon cat"
              _ _ (surjective_pairing _))
    as (Hr & _ & _ & _ & _ & Hhist & new & _ & _ & _ & _ & Himg).
  assert (Hok : generateNanoBananaImage_result one_image_env (sent (events start))
                  "a neon cat" = Ok "data:image/png;base64,QUJD").
  { vm_compute. reflexivity. }
  split; [apply surjective_pairing|]. split; [exact Hr|]. split; [exact Hhist|].
  exact (proj1 (Himg _ Hok)).
Defined.

(** X18 on a run that completes. *)
Lemma recall_after_run_is_identity_witness :
  let run := submitMedia png_file complete_env start in
  file_dataURL png_file = Ok "data:image/png;base64,iVBORw0KGgo=" /\
  submitMedia png_file complete_env start = (fst run, snd run) /\
  isTruthy (seo (app (snd run))) = true /\
  isTruthy (thumbnailConcepts (app (snd run))) = true /\
  exists item,
    commits (events (snd run)) = [item] /\
    recallRun item complete_env (snd run) =
      (Ok tt, {| app := with_showVault false (app (snd run));
                 events := events (snd run) |}).
Proof.
  cbv zeta.
  assert (Hcom : exists item,
             commits (events (snd (submitMedia png_file complete_env start)))
             = [item]).
  { vm_compute. eexists. reflexivity. }
  destruct Hcom as [item Hcom].
  assert (Hseo : isTruthy (seo (app (snd (submitMedia png_file complete_env start))))
                 = true).
  { vm_compute. reflexivity. }
  assert (Hth : isTruthy (thumbnailConcepts
                            (app (snd (submitMedia png_file complete_env start))))
                = true).
  { vm_compute. reflexivity. }
  split; [reflexivity|]. split; [apply surjective_pairing|].
  split; [exact Hseo|]. split; [exact Hth|].
  exists item. split; [exact Hcom|].
  exact (proj2 (recall_after_run_is_identity complete_env start png_file
                  "data:image/png;base64,iVBORw0KGgo=" _ _ _ item
                  eq_refl (surjective_pairing _) (events_from_start _) Hcom Hseo Hth)).
Defined.


(** X7 on a video file. *)
Lemma video_request_implies_video_kind_witness :
  String.prefix "video/" (file_type mp4_file) = true /\
  kindOf mp4_file = video /\
  contents (analyzeMediaRequest (VStr "AAAAIGZ0eXA=" : value Z) (file_type mp4_file)) =
    PromptParts [ InlineDataPart (VStr "AAAAIGZ0eXA=") "video/mp4";
                  TextPart (analyzePromptText true) ].
Proof.
  destruct (video_request_implies_video_kind (VStr "AAAAIGZ0eXA=" : value Z) mp4_file)
    as [Hvideo _].
  destruct (Hvideo eq_refl) as [Hcontents Hkind].
  split; [reflexivity|]. split; [exact Hkind | exact Hcontents].
Defined.

(** X10 on the empty object as analysis: no request text, no request. *)
Lemma generateSEO_failures_witness :
  fst (generateSEO (VObj []) YouTube complete_env start) = Err TypeError /\
  request_log (events (snd (generateSEO (VObj []) YouTube complete_env start)))
    = request_log (events start).
Proof.
  assert (Hfail : fst (generateSEO (VObj []) YouTube complete_env start)
                  = Err TypeError).
  { vm_compute. reflexivity. }
  split; [exact Hfail|].
  destruct (proj1 (generateSEO_failures (number := Z)) complete_env start (VObj [])
              YouTube TypeError Hfail)
    as [(_ & _ & Hlog) | (prompt & Hprompt & _)]; [exact Hlog|].
  vm_compute in Hprompt. discriminate Hprompt.
Defined.

(** X15 on a response whose first candidate holds a JPEG after a text part
    and whose second candidate holds a PNG. *)
Lemma generateNanoBananaImage_first_inline_part_witness :
  imageOfResponse
    {| candidates := Some [jpeg_candidate; png_candidate]; text := None |}
  = Ok "data:image/png;base64,/9j/4AAQ".
Proof.
  refine (proj1 generateNanoBananaImage_first_inline_part
            jpeg_candidate [png_candidate] _
            [ {| part_text := Some "Here it is"; inlineData := None |} ] []
            _ {| data := Some "/9j/4AAQ"; mimeType := Some "image/jpeg" |} None
            eq_refl eq_refl _ eq_refl).
  constructor; [reflexivity | constructor].
Defined.
